(** * rdtsc-bench: a shallow embedding of the TSC benchmarking engine

    The development follows the layout of the C++ sources:

    - [Types]    : [include/utils/types.h]   (fixed-width integers)
    - [Details]  : [include/tsc_cpu.h]       (instructions, [CpuInfo]) and
                   [include/utils/affinity.h] ([PinThread])
    - [Clock]    : [include/tsc_clock.h]     ([TSCClock], one case per barrier)
    - [Bench]    : [include/tsc_benchmark.h] ([TSCBenchmarking])
    - [Tape]     : a concrete machine whose counter replays a script, used
                   to run the embedding on explicit inputs.

    Unsigned 64-bit values are integers of [Z] reduced with [wrap64];
    the hardware is an interface ([Hardware]) over an abstract world, and
    every loop whose exit depends on what the counter returns takes a
    fuel argument. *)

From Stdlib Require Import ZArith List Bool Lia.
Import ListNotations.
Local Open Scope Z_scope.

(* ================================================================= *)
(** ** utils/types.h *)

Module Types.

Definition TimePoint := Z.   (* std::uint64_t *)
Definition Register := Z.    (* std::uint64_t *)
Definition CpuIdT := Z.      (* std::uint32_t, the type [CpuId] *)
Definition InternalRegister := Z. (* std::uint32_t *)

Definition wrap64 (z : Z) : Z := z mod 2 ^ 64.
Definition wrap32 (z : Z) : Z := z mod 2 ^ 32.

(** [std::numeric_limits<TimePoint>::max()] *)
Definition TimePoint_max : TimePoint := 2 ^ 64 - 1.

Definition is_u64 (z : Z) : Prop := 0 <= z < 2 ^ 64.

End Types.
Import Types.

(* ================================================================= *)
(** ** The machine *)

(** What the processor executed, most recent first.  [EvCode] marks one
    invocation of a callable handed to the benchmark. *)
Inductive Event : Type :=
| EvCpuId
| EvRdtsc
| EvRdtscp
| EvLFence
| EvMFence
| EvCode.

Definition Event_eqb (a b : Event) : bool :=
  match a, b with
  | EvCpuId, EvCpuId | EvRdtsc, EvRdtsc | EvRdtscp, EvRdtscp
  | EvLFence, EvLFence | EvMFence, EvMFence | EvCode, EvCode => true
  | _, _ => false
  end.

(** The processor and operating system as the library sees them. *)
Class Hardware (World : Type) : Type := {
  (** [rdtsc]: EAX, EDX *)
  hw_rdtsc : World -> Z * Z * World;
  (** [rdtscp]: EAX, EDX, ECX *)
  hw_rdtscp : World -> Z * Z * Z * World;
  (** [cpuid] with EAX=0, used as a serializing instruction *)
  hw_cpuid : World -> World;
  hw_lfence : World -> World;
  hw_mfence : World -> World;
  (** [cpuid] with EAX=1, ECX=0: EAX, EBX, ECX, EDX *)
  hw_cpuid_leaf1 : World -> Z * Z * Z * Z;
  (** [sched_setaffinity(0, ..., {cpu})], [true] when it returned 0 *)
  hw_sched_setaffinity : Z -> World -> bool * World;
  (** [clock_gettime(CLOCK_REALTIME, &ts)] *)
  hw_clock_gettime : World -> World;
  (** the root-only block of [Initialize]: scheduler class and [mlockall] *)
  hw_realtime_setup : World -> World
}.

Record Machine (World : Type) : Type := mkMachine {
  world : World;
  log : list Event
}.
Arguments mkMachine {World} _ _.
Arguments world {World} _.
Arguments log {World} _.

(** A state monad over the machine. *)
Definition M (World A : Type) : Type := Machine World -> A * Machine World.

Definition ret {World A : Type} (a : A) : M World A := fun m => (a, m).

Definition bind {World A B : Type} (c : M World A) (k : A -> M World B)
  : M World B :=
  fun m => let (a, m') := c m in k a m'.

Declare Scope machine_scope.
Delimit Scope machine_scope with machine.
Notation "x <- c ;; k" := (bind c (fun x => k))
  (at level 61, c at next level, right associativity) : machine_scope.
Notation "' p <- c ;; k" := (bind c (fun x => let p := x in k))
  (at level 61, p pattern, c at next level, right associativity) : machine_scope.
Notation "c ;;; k" := (bind c (fun _ => k))
  (at level 61, right associativity) : machine_scope.

(** Loops that wait for the hardware either finish, fault on a division
    by zero, or exhaust the fuel they were given. *)
Inductive outcome (A : Type) : Type :=
| Done (a : A)
| DivisionByZero
| OutOfFuel.
Arguments Done {A} _.
Arguments DivisionByZero {A}.
Arguments OutOfFuel {A}.

(** A callable under test: it acts on the world and cannot see the log. *)
Definition Code (World : Type) : Type := World -> World.

Definition invoke {World : Type} (code : Code World) : M World unit :=
  fun m => (tt, mkMachine (code (world m)) (EvCode :: log m)).

(** Events of a run in the order they happened. *)
Definition history {World : Type} (m : Machine World) : list Event :=
  rev (log m).

Definition count_event (e : Event) (l : list Event) : nat :=
  length (filter (Event_eqb e) l).

(* ================================================================= *)
(** ** tsc_cpu.h and utils/affinity.h *)

Module Details.
Section WithHardware.
Context {World : Type} {HW : Hardware World}.
Local Open Scope machine_scope.

(** [(high << 32) | low] on 64-bit registers *)
Definition CombineRegisters (low high : Register) : Register :=
  Z.lor (wrap64 (Z.shiftl high 32)) low.

Definition Rdtsc : M World TimePoint :=
  fun m =>
    let '(low, high, w) := hw_rdtsc (world m) in
    (CombineRegisters (wrap32 low) (wrap32 high),
     mkMachine w (EvRdtsc :: log m)).

(** [Rdtscp()] *)
Definition Rdtscp0 : M World TimePoint :=
  fun m =>
    let '(low, high, _, w) := hw_rdtscp (world m) in
    (CombineRegisters (wrap32 low) (wrap32 high),
     mkMachine w (EvRdtscp :: log m)).

(** [Rdtscp(CpuId& chip_number)]: the output parameter is returned
    next to the time stamp. *)
Definition Rdtscp : M World (TimePoint * CpuIdT) :=
  fun m =>
    let '(low, high, aux, w) := hw_rdtscp (world m) in
    (CombineRegisters (wrap32 low) (wrap32 high),
     Z.land (wrap32 aux) 16777215 (* 0xFFFFFF *),
     mkMachine w (EvRdtscp :: log m)).

(** [Rdtscp(CpuId& chip, CpuId& core)] *)
Definition Rdtscp2 : M World (TimePoint * CpuIdT * CpuIdT) :=
  fun m =>
    let '(low, high, aux, w) := hw_rdtscp (world m) in
    (CombineRegisters (wrap32 low) (wrap32 high),
     Z.shiftr (Z.land (wrap32 aux) 16773120 (* 0xFFF000 *)) 12,
     Z.land (wrap32 aux) 4095 (* 0xFFF *),
     mkMachine w (EvRdtscp :: log m)).

Definition CpuId : M World unit :=
  fun m => (tt, mkMachine (hw_cpuid (world m)) (EvCpuId :: log m)).

Definition LFence : M World unit :=
  fun m => (tt, mkMachine (hw_lfence (world m)) (EvLFence :: log m)).

Definition MFence : M World unit :=
  fun m => (tt, mkMachine (hw_mfence (world m)) (EvMFence :: log m)).

(** *** CpuInfo *)

Record CpuInfo : Type := mkCpuInfo { registers_ : Z * Z * Z * Z }.

Definition kTscFeatureBit : InternalRegister := Z.shiftl 1 4.
Definition kRdtscpFeatureBit : InternalRegister := Z.shiftl 1 27.
Definition kInvariantTscBit : InternalRegister := Z.shiftl 1 8.

(** The constructor executes [cpuid] with EAX=1. *)
Definition CpuInfo_new (w : World) : CpuInfo :=
  let '(a, b, c, d) := hw_cpuid_leaf1 w in
  mkCpuInfo (wrap32 a, wrap32 b, wrap32 c, wrap32 d).

Definition GetEdx (ci : CpuInfo) : InternalRegister :=
  let '(_, _, _, d) := registers_ ci in d.

Definition IsFeatureEnabled (reg mask : InternalRegister) : bool :=
  negb (Z.land reg mask =? 0).

Definition IsTscEnabled (ci : CpuInfo) : bool :=
  IsFeatureEnabled (GetEdx ci) kTscFeatureBit.

Definition IsInvariantTscEnabled (ci : CpuInfo) : bool :=
  IsFeatureEnabled (GetEdx ci) kInvariantTscBit.

Definition IsRdtscpEnabled (ci : CpuInfo) : bool :=
  IsFeatureEnabled (GetEdx ci) kRdtscpFeatureBit.

(** *** PinThread (messages on the diagnostic streams are not modelled) *)
Definition PinThread (cpu : Z) : M World bool :=
  fun m =>
    if cpu <? 0 then (false, m)
    else
      let (ok, w) := hw_sched_setaffinity cpu (world m) in
      (ok, mkMachine w (log m)).

End WithHardware.
End Details.

(* ================================================================= *)
(** ** tsc_clock.h *)

Inductive Barrier : Type :=
| kOneCpuId
| kLFence
| kMFence
| kRdtscp
| kTwoCpuId.

Definition Barrier_eqb (a b : Barrier) : bool :=
  match a, b with
  | kOneCpuId, kOneCpuId | kLFence, kLFence | kMFence, kMFence
  | kRdtscp, kRdtscp | kTwoCpuId, kTwoCpuId => true
  | _, _ => false
  end.

Module Clock.
Section WithHardware.
Context {World : Type} {HW : Hardware World}.
Local Open Scope machine_scope.

(** [TSCClock<kTwoCpuId>::GetTimestamp()] *)
Definition GetTimestamp : M World TimePoint :=
  Details.CpuId ;;;
  time <- Details.Rdtsc ;;
  Details.CpuId ;;;
  ret time.

(** [TSCClock<kTwoCpuId>::GetTimestamp(CpuId&)] *)
Definition GetTimestampCpu : M World (TimePoint * CpuIdT) :=
  Details.CpuId ;;;
  time <- Details.Rdtscp ;;
  Details.CpuId ;;;
  ret time.

(** [StartTime()] *)
Definition StartTime (b : Barrier) : M World TimePoint :=
  match b with
  | kOneCpuId | kLFence | kMFence | kRdtscp =>
      Details.CpuId ;;; Details.Rdtsc
  | kTwoCpuId => GetTimestamp
  end.

(** [StartTime(CpuId& cpu_number)] *)
Definition StartTimeCpu (b : Barrier) : M World (TimePoint * CpuIdT) :=
  match b with
  | kOneCpuId | kLFence | kMFence | kRdtscp =>
      Details.CpuId ;;; Details.Rdtscp
  | kTwoCpuId => GetTimestampCpu
  end.

(** [EndTime()] *)
Definition EndTime (b : Barrier) : M World TimePoint :=
  match b with
  | kOneCpuId => Details.CpuId ;;; Details.Rdtsc
  | kLFence =>
      Details.LFence ;;;
      time <- Details.Rdtsc ;;
      Details.CpuId ;;;
      ret time
  | kMFence =>
      Details.CpuId ;;;
      time <- Details.Rdtsc ;;
      Details.MFence ;;;
      ret time
  | kRdtscp =>
      time <- Details.Rdtscp0 ;;
      Details.CpuId ;;;
      ret time
  | kTwoCpuId => GetTimestamp
  end.

(** [EndTime(CpuId& cpu_number)] *)
Definition EndTimeCpu (b : Barrier) : M World (TimePoint * CpuIdT) :=
  match b with
  | kOneCpuId => Details.CpuId ;;; Details.Rdtscp
  | kLFence =>
      Details.LFence ;;;
      time <- Details.Rdtscp ;;
      Details.CpuId ;;;
      ret time
  | kMFence =>
      Details.CpuId ;;;
      time <- Details.Rdtscp ;;
      Details.MFence ;;;
      ret time
  | kRdtscp =>
      time <- Details.Rdtscp ;;
      Details.CpuId ;;;
      ret time
  | kTwoCpuId => GetTimestampCpu
  end.

End WithHardware.
End Clock.

(* ================================================================= *)
(** ** tsc_benchmark.h *)

Definition outcome_map {A B : Type} (f : A -> B) (o : outcome A) : outcome B :=
  match o with
  | Done a => Done (f a)
  | DivisionByZero => DivisionByZero
  | OutOfFuel => OutOfFuel
  end.

Module Bench.

(** [TSCBenchmarking::Settings] *)
Record Settings : Type := mkSettings {
  cycles_number_ : Z;               (* std::size_t *)
  cpu_ : Z;                         (* int *)
  cache_warmup_cycles_number_ : Z   (* std::size_t *)
}.

(** [TSCBenchmarking::Result] *)
Record Result : Type := mkResult {
  time_ : TimePoint;
  overhead_ : TimePoint
}.

(** The data members of [TSCBenchmarking] ([clock_] has no state). *)
Record TSCBenchmarking : Type := mkBench {
  tsc_overhead_ : TimePoint;
  clock_overhead_ : TimePoint
}.

Definition kDefaultCyclesNumber : Z := 100.
Definition kDefaultStabilizedThreshold : Z := kDefaultCyclesNumber * 10 / 100.
Definition kDefaultRunsNumber : Z := 100.

Definition default_Settings : Settings :=
  mkSettings kDefaultCyclesNumber 0 0.

(** Values a [Settings] object can hold. *)
Definition wf_Settings (s : Settings) : Prop :=
  0 <= cycles_number_ s < 2 ^ 64 /\
  - 2 ^ 31 <= cpu_ s < 2 ^ 31 /\
  0 <= cache_warmup_cycles_number_ s < 2 ^ 64.

(** Values the data members can hold. *)
Definition wf_Bench (b : TSCBenchmarking) : Prop :=
  is_u64 (tsc_overhead_ b) /\ is_u64 (clock_overhead_ b).

(** Local variables of the loops. *)
Record MinLoop : Type := mkMinLoop {
  ml_i : Z;
  ml_min_latency : TimePoint
}.

Record StabLoop : Type := mkStabLoop {
  sl_i : Z;
  sl_min_latency : TimePoint;
  sl_min_latency_cycles_number : Z
}.

Record RunLoop : Type := mkRunLoop {
  rl_r : Z;
  rl_summary_time : Z;
  rl_start : TimePoint;
  rl_end : TimePoint
}.

Section WithHardware.
Context {World : Type} {HW : Hardware World}.
(** The template parameters. *)
Variable CheckCpuMigration : bool.
Variable BarrierType : Barrier.
Local Open Scope machine_scope.

(** [details::kEmptyCode] *)
Definition kEmptyCode : Code World := fun w => w.

(** [kGetTime] *)
Definition kGetTime : Code World := fun w => hw_clock_gettime w.

(** The constructor.  A failed [assert] aborts: no object exists.
    The warning about a non-invariant counter is printed only. *)
Definition TSCBenchmarking_new (w : World) : option TSCBenchmarking :=
  let cpu_info := Details.CpuInfo_new w in
  if negb (Details.IsTscEnabled cpu_info) then None
  else if negb (negb (Barrier_eqb BarrierType kRdtscp)
                || Details.IsRdtscpEnabled cpu_info) then None
  else Some (mkBench 0 0).

(** [MeasureTime] *)
Definition MeasureTime (code : Code World) : M World TimePoint :=
  start <- Clock.StartTime BarrierType ;;
  invoke code ;;;
  end_ <- Clock.EndTime BarrierType ;;
  ret (wrap64 (end_ - start)).

(** [Measure]: the two reference parameters are returned after the
    boolean. *)
Definition Measure (code : Code World)
  : M World (bool * TimePoint * TimePoint) :=
  if CheckCpuMigration then
    '(start, start_cpu_number) <- Clock.StartTimeCpu BarrierType ;;
    invoke code ;;;
    '(end_, end_cpu_number) <- Clock.EndTimeCpu BarrierType ;;
    ret (start_cpu_number =? end_cpu_number, start, end_)
  else
    start <- Clock.StartTime BarrierType ;;
    invoke code ;;;
    end_ <- Clock.EndTime BarrierType ;;
    ret (true, start, end_).

(** *** MeasureMinLatency *)

Definition MeasureMinLatency_body (code : Code World) (st : MinLoop)
  : M World MinLoop :=
  '(ok, start, end_) <- Measure code ;;
  if ok && (start <? end_) then
    ret (mkMinLoop (wrap64 (ml_i st + 1))
                   (Z.min (ml_min_latency st) (wrap64 (end_ - start))))
  else ret st.

Fixpoint MeasureMinLatency_loop (fuel : nat) (cycles_number : Z)
    (code : Code World) (st : MinLoop) (m : Machine World)
  : outcome (MinLoop * Machine World) :=
  if ml_i st <? cycles_number then
    match fuel with
    | O => OutOfFuel
    | S fuel' =>
        let (st', m') := MeasureMinLatency_body code st m in
        MeasureMinLatency_loop fuel' cycles_number code st' m'
    end
  else Done (st, m).

Definition MeasureMinLatency (fuel : nat) (cycles_number : Z)
    (code : Code World) (m : Machine World)
  : outcome (TimePoint * Machine World) :=
  outcome_map (fun r => (ml_min_latency (fst r), snd r))
    (MeasureMinLatency_loop fuel cycles_number code
       (mkMinLoop 0 TimePoint_max) m).

(** *** MeasureStabilizedMinLatency *)

Definition MeasureStabilizedMinLatency_body (code : Code World)
    (st : StabLoop) : M World StabLoop :=
  '(ok, start, end_) <- Measure code ;;
  if ok && (start <? end_) then
    let latency := wrap64 (end_ - start) in
    let st1 :=
      if latency <? sl_min_latency st
      then mkStabLoop (sl_i st) latency 0
      else st in
    ret (mkStabLoop (wrap64 (sl_i st1 + 1))
                    (sl_min_latency st1)
                    (wrap64 (sl_min_latency_cycles_number st1 + 1)))
  else ret st.

Fixpoint MeasureStabilizedMinLatency_loop (fuel : nat)
    (cycles_number stabilized_threshold : Z)
    (code : Code World) (st : StabLoop) (m : Machine World)
  : outcome (StabLoop * Machine World) :=
  if (sl_i st <? cycles_number)
     && (sl_min_latency_cycles_number st <? stabilized_threshold) then
    match fuel with
    | O => OutOfFuel
    | S fuel' =>
        let (st', m') := MeasureStabilizedMinLatency_body code st m in
        MeasureStabilizedMinLatency_loop fuel' cycles_number
          stabilized_threshold code st' m'
    end
  else Done (st, m).

Definition MeasureStabilizedMinLatency (fuel : nat)
    (cycles_number stabilized_threshold : Z)
    (code : Code World) (m : Machine World)
  : outcome (TimePoint * Machine World) :=
  outcome_map (fun r => (sl_min_latency (fst r), snd r))
    (MeasureStabilizedMinLatency_loop fuel cycles_number
       stabilized_threshold code (mkStabLoop 0 TimePoint_max 0) m).

(** *** MeasureOverhead and MeasureStabilizedOverhead *)

Definition MeasureOverhead (fuel : nat) (cycles_number : Z)
    (m : Machine World)
  : outcome (TimePoint * TimePoint * Machine World) :=
  match MeasureMinLatency fuel cycles_number kEmptyCode m with
  | Done (min_tsc_overhead, m1) =>
      match MeasureMinLatency fuel cycles_number kGetTime m1 with
      | Done (min_clock_overhead, m2) =>
          Done (min_tsc_overhead,
                wrap64 (min_clock_overhead - min_tsc_overhead), m2)
      | DivisionByZero => DivisionByZero
      | OutOfFuel => OutOfFuel
      end
  | DivisionByZero => DivisionByZero
  | OutOfFuel => OutOfFuel
  end.

Definition MeasureStabilizedOverhead (fuel : nat)
    (cycles_number stabilized_threshold : Z) (m : Machine World)
  : outcome (TimePoint * TimePoint * Machine World) :=
  match MeasureStabilizedMinLatency fuel cycles_number
          stabilized_threshold kEmptyCode m with
  | Done (min_tsc_overhead, m1) =>
      match MeasureStabilizedMinLatency fuel cycles_number
              stabilized_threshold kGetTime m1 with
      | Done (min_clock_overhead, m2) =>
          Done (min_tsc_overhead,
                wrap64 (min_clock_overhead - min_tsc_overhead), m2)
      | DivisionByZero => DivisionByZero
      | OutOfFuel => OutOfFuel
      end
  | DivisionByZero => DivisionByZero
  | OutOfFuel => OutOfFuel
  end.

(** *** Initialize *)

Definition Initialize (fuel : nat) (b : TSCBenchmarking)
    (m : Machine World) : outcome (TSCBenchmarking * Machine World) :=
  let m0 := mkMachine (hw_realtime_setup (world m)) (log m) in
  match MeasureOverhead fuel kDefaultCyclesNumber m0 with
  | Done (first, second, m1) => Done (mkBench first second, m1)
  | DivisionByZero => DivisionByZero
  | OutOfFuel => OutOfFuel
  end.

(** *** Run *)

(** One turn of the warm-up loop: [start] and [end] are overwritten. *)
Definition Run_warmup_body (code : Code World)
    (locals : TimePoint * TimePoint) : M World (TimePoint * TimePoint) :=
  if CheckCpuMigration then
    '(start, cpu_number0) <- Clock.StartTimeCpu BarrierType ;;
    invoke code ;;;
    '(end_, cpu_number1) <- Clock.EndTimeCpu BarrierType ;;
    ret (start, end_)
  else
    start <- Clock.StartTime BarrierType ;;
    invoke code ;;;
    end_ <- Clock.EndTime BarrierType ;;
    ret (start, end_).

(** [for (r = 0; r < cache_warmup_cycles_number_; ++r)] *)
Fixpoint Run_warmup (n : nat) (code : Code World)
    (locals : TimePoint * TimePoint) : M World (TimePoint * TimePoint) :=
  match n with
  | O => ret locals
  | S n' =>
      locals' <- Run_warmup_body code locals ;;
      Run_warmup n' code locals'
  end.

(** The tail of the measurement loop body, from [if (LIKELY(end > start))]. *)
Definition Run_accumulate (overhead : TimePoint) (st : RunLoop)
    (start end_ : TimePoint) : RunLoop :=
  if start <? end_ then
    let time := wrap64 (end_ - start) in
    if overhead <? time then
      mkRunLoop (wrap64 (rl_r st + 1))
                (wrap64 (rl_summary_time st + time)) start end_
    else mkRunLoop (rl_r st) (rl_summary_time st) start end_
  else mkRunLoop (rl_r st) (rl_summary_time st) start end_.

Definition Run_measure_body (code : Code World) (overhead : TimePoint)
    (st : RunLoop) : M World RunLoop :=
  if CheckCpuMigration then
    '(start, cpu_number0) <- Clock.StartTimeCpu BarrierType ;;
    invoke code ;;;
    '(end_, cpu_number1) <- Clock.EndTimeCpu BarrierType ;;
    if negb (cpu_number0 =? cpu_number1) then
      (* continue *)
      ret (mkRunLoop (rl_r st) (rl_summary_time st) start end_)
    else ret (Run_accumulate overhead st start end_)
  else
    start <- Clock.StartTime BarrierType ;;
    invoke code ;;;
    end_ <- Clock.EndTime BarrierType ;;
    ret (Run_accumulate overhead st start end_).

(** [for (r = 0; r < settings.cycles_number_;)] *)
Fixpoint Run_measure (fuel : nat) (cycles_number : Z) (code : Code World)
    (overhead : TimePoint) (st : RunLoop) (m : Machine World)
  : outcome (RunLoop * Machine World) :=
  if rl_r st <? cycles_number then
    match fuel with
    | O => OutOfFuel
    | S fuel' =>
        let (st', m') := Run_measure_body code overhead st m in
        Run_measure fuel' cycles_number code overhead st' m'
    end
  else Done (st, m).

(** [Run] up to the end of the warm-up loop: pinning (a failure only
    prints a warning) and warm-up. *)
Definition Run_prologue (locals : TimePoint * TimePoint)
    (code : Code World) (settings : Settings)
  : M World (TimePoint * TimePoint) :=
  fun m =>
    let (_, m0) := Details.PinThread (cpu_ settings) m in
    Run_warmup (Z.to_nat (cache_warmup_cycles_number_ settings))
      code locals m0.

(** [Run], with the initial contents of the uninitialised locals
    [start] and [end] made explicit. *)
Definition Run_from (locals : TimePoint * TimePoint) (fuel : nat)
    (b : TSCBenchmarking) (code : Code World) (settings : Settings)
    (m : Machine World) : outcome (Result * Machine World) :=
  let (locals1, m1) := Run_prologue locals code settings m in
  match Run_measure fuel (cycles_number_ settings) code (tsc_overhead_ b)
          (mkRunLoop 0 0 (fst locals1) (snd locals1)) m1 with
  | Done (st, m2) =>
      if cycles_number_ settings =? 0 then DivisionByZero
      else Done (mkResult (rl_summary_time st / cycles_number_ settings)
                          (tsc_overhead_ b), m2)
  | DivisionByZero => DivisionByZero
  | OutOfFuel => OutOfFuel
  end.

Definition Run : nat -> TSCBenchmarking -> Code World -> Settings ->
                 Machine World -> outcome (Result * Machine World) :=
  Run_from (0, 0).

End WithHardware.
End Bench.

(* ================================================================= *)
(** ** A scripted machine *)

(** The counter replays [reads]: each [rdtsc]/[rdtscp] consumes one entry
    (counter value, IA32_TSC_AUX).  With the script exhausted the counter
    stays at zero.  Every other instruction leaves the world alone. *)
Module Tape.

Record World : Type := mkWorld {
  reads : list (Z * Z);
  leaf1_edx : Z
}.

Definition next (w : World) : Z * Z * World :=
  match reads w with
  | [] => (0, 0, w)
  | (t, aux) :: rest => (t, aux, mkWorld rest (leaf1_edx w))
  end.

#[global] Instance hardware : Hardware World := {
  hw_rdtsc w := let '(t, _, w') := next w in
                (Z.land t (2 ^ 32 - 1), Z.shiftr t 32, w');
  hw_rdtscp w := let '(t, aux, w') := next w in
                 (Z.land t (2 ^ 32 - 1), Z.shiftr t 32, aux, w');
  hw_cpuid w := w;
  hw_lfence w := w;
  hw_mfence w := w;
  hw_cpuid_leaf1 w := (0, 0, 0, leaf1_edx w);
  hw_sched_setaffinity _ w := (true, w);
  hw_clock_gettime w := w;
  hw_realtime_setup w := w
}.

(** EDX of leaf 1 with the TSC bit (4) set and bit 27 clear. *)
Definition edx_tsc_only : Z := 16.
(** EDX of leaf 1 with bits 4, 8 and 27 set. *)
Definition edx_all : Z := 16 + 256 + 134217728.

(** A machine about to replay [script], on a processor with every
    feature bit set. *)
Definition boot (script : list (Z * Z)) : Machine World :=
  mkMachine (mkWorld script edx_all) [].

(** An operation that does nothing the machine can observe. *)
Definition nop : Code World := fun w => w.

End Tape.

(* ================================================================= *)
(** ** What one iteration observes *)

(** Every loop of the benchmark repeats the same experiment: a start
    reading, the callable, an end reading.  [sample] is that experiment;
    the loops are then described by what they do with the stream of
    samples the machine produces. *)
Module Stream.

Record Sample : Type := mkSample {
  s_start : TimePoint;
  s_end : TimePoint;
  (** core ids of the two readings, when they are taken *)
  s_cores : option (CpuIdT * CpuIdT)
}.

(** The two readings were taken on different cores. *)
Definition migrated (x : Sample) : bool :=
  match s_cores x with
  | Some (c0, c1) => negb (c0 =? c1)
  | None => false
  end.

Definition monotonic (x : Sample) : bool := s_start x <? s_end x.

Definition duration (x : Sample) : Z := s_end x - s_start x.

(** Samples the calibration loops count. *)
Definition accepted (x : Sample) : bool := negb (migrated x) && monotonic x.

(** Samples the measurement loop of [Run] counts. *)
Definition retained (overhead : TimePoint) (x : Sample) : bool :=
  accepted x && (overhead <? duration x).

Definition in_range (x : Sample) : Prop :=
  is_u64 (s_start x) /\ is_u64 (s_end x).

Definition sum_durations (l : list Sample) : Z :=
  fold_right (fun x acc => duration x + acc) 0 l.

(** Smallest duration of [l], capped by [TimePoint_max]. *)
Definition min_duration (l : list Sample) : Z :=
  fold_right (fun x acc => Z.min (duration x) acc) TimePoint_max l.

Section WithHardware.
Context {World : Type} {HW : Hardware World}.
Variable CheckCpuMigration : bool.
Variable BarrierType : Barrier.
Variable code : Code World.
Local Open Scope machine_scope.

Definition sample : M World Sample :=
  if CheckCpuMigration then
    '(start, cpu0) <- Clock.StartTimeCpu BarrierType ;;
    invoke code ;;;
    '(end_, cpu1) <- Clock.EndTimeCpu BarrierType ;;
    ret (mkSample start end_ (Some (cpu0, cpu1)))
  else
    start <- Clock.StartTime BarrierType ;;
    invoke code ;;;
    end_ <- Clock.EndTime BarrierType ;;
    ret (mkSample start end_ None).

(** The first [n] samples taken from [m] on. *)
Fixpoint observations (n : nat) (m : Machine World) : list Sample :=
  match n with
  | O => []
  | S n' => let (x, m') := sample m in x :: observations n' m'
  end.

(** The machine after [n] samples. *)
Fixpoint advance (n : nat) (m : Machine World) : Machine World :=
  match n with
  | O => m
  | S n' => advance n' (snd (sample m))
  end.

(** A loop that samples while [continue] holds, and the same loop
    reading its samples from a list. *)
Section Drive.
Variable St : Type.
Variable continue : St -> bool.
Variable step : St -> Sample -> St.

Fixpoint drive (fuel : nat) (st : St) (m : Machine World)
  : outcome (St * Machine World) :=
  if continue st then
    match fuel with
    | O => OutOfFuel
    | S fuel' =>
        let (x, m') := sample m in drive fuel' (step st x) m'
    end
  else Done (st, m).

Fixpoint consume (l : list Sample) (st : St) : option (St * nat) :=
  if continue st then
    match l with
    | [] => None
    | x :: l' =>
        match consume l' (step st x) with
        | Some (st', k) => Some (st', S k)
        | None => None
        end
    end
  else Some (st, O).
End Drive.

End WithHardware.

(** The loop bodies of [tsc_benchmark.h] as functions of the sample. *)

Definition min_step (st : Bench.MinLoop) (x : Sample) : Bench.MinLoop :=
  if accepted x then
    Bench.mkMinLoop (wrap64 (Bench.ml_i st + 1))
      (Z.min (Bench.ml_min_latency st) (wrap64 (s_end x - s_start x)))
  else st.

Definition stab_step (st : Bench.StabLoop) (x : Sample) : Bench.StabLoop :=
  if accepted x then
    let latency := wrap64 (s_end x - s_start x) in
    let st1 :=
      if latency <? Bench.sl_min_latency st
      then Bench.mkStabLoop (Bench.sl_i st) latency 0
      else st in
    Bench.mkStabLoop (wrap64 (Bench.sl_i st1 + 1))
      (Bench.sl_min_latency st1)
      (wrap64 (Bench.sl_min_latency_cycles_number st1 + 1))
  else st.

Definition run_step (overhead : TimePoint) (st : Bench.RunLoop) (x : Sample)
  : Bench.RunLoop :=
  if migrated x then
    Bench.mkRunLoop (Bench.rl_r st) (Bench.rl_summary_time st)
      (s_start x) (s_end x)
  else Bench.Run_accumulate overhead st (s_start x) (s_end x).

End Stream.

(* ================================================================= *)
(** ** Reading a loop off the sample stream *)

Module Reading.
Import Stream.

(** How many samples of [l] must be taken to see [n] that satisfy [P]
    ([None] when [l] has fewer). *)
Fixpoint needed (P : Sample -> bool) (n : nat) (l : list Sample)
  : option nat :=
  match n with
  | O => Some O
  | S n' =>
      match l with
      | [] => None
      | x :: l' =>
          match needed P (if P x then n' else n) l' with
          | Some k => Some (S k)
          | None => None
          end
      end
  end.

(** The first [n] samples of [l] that satisfy [P]. *)
Definition kept (P : Sample -> bool) (n : nat) (l : list Sample)
  : list Sample :=
  firstn n (filter P l).

(** *** The stabilized loop, on the durations of the accepted samples *)

(** The two local variables [min_latency] and
    [min_latency_cycles_number] after one more accepted duration. *)
Definition track (acc : Z * nat) (d : Z) : Z * nat :=
  let (min, n) := acc in
  if d <? min then (d, 1%nat) else (min, S n).

(** Value of [min_latency_cycles_number] after the durations [ds]:
    the number of accepted iterations since, and including, the one
    that last lowered the minimum. *)
Definition standing (ds : list Z) : nat :=
  snd (fold_left track ds (TimePoint_max, O)).

Definition lowest (ds : list Z) : Z :=
  fst (fold_left track ds (TimePoint_max, O)).

(** In the words of the specification: the number of consecutive
    iterations that have failed to beat the current minimum. *)
Definition track_failed (acc : Z * nat) (d : Z) : Z * nat :=
  let (min, n) := acc in
  if d <? min then (d, O) else (min, S n).

Definition failed_streak (ds : list Z) : nat :=
  snd (fold_left track_failed ds (TimePoint_max, O)).

(** The loop variables after the accepted durations [taken]. *)
Definition state_of (taken : list Z) : Bench.StabLoop :=
  Bench.mkStabLoop (Z.of_nat (length taken)) (lowest taken)
    (Z.of_nat (standing taken)).

(** The loop condition of the stabilized variant, negated. *)
Definition stops (N thr : Z) (taken : list Z) : bool :=
  negb ((Z.of_nat (length taken) <? N)
        && (Z.of_nat (standing taken) <? thr)).

(** The stop rule as the specification words it. *)
Definition stops_as_specified (N thr : Z) (taken : list Z) : bool :=
  negb ((Z.of_nat (length taken) <? N)
        && (Z.of_nat (failed_streak taken) <? thr)).

(** The shortest extension of [taken] by durations of [rest] at which
    the loop stops. *)
Fixpoint first_stop (N thr : Z) (taken rest : list Z) : option (list Z) :=
  if stops N thr taken then Some taken
  else
    match rest with
    | [] => None
    | d :: rest' => first_stop N thr (taken ++ [d]) rest'
    end.

(** *** The machine on which the measurement phase of [Run] starts *)

Definition after_warmup {World : Type} {HW : Hardware World}
    (CheckCpuMigration : bool) (BarrierType : Barrier) (code : Code World)
    (settings : Bench.Settings) (m : Machine World) : Machine World :=
  advance CheckCpuMigration BarrierType code
    (Z.to_nat (Bench.cache_warmup_cycles_number_ settings))
    (snd (Details.PinThread (Bench.cpu_ settings) m)).

(** *** Which instructions a configuration executes *)

(** Events one iteration appends to the log (most recent first), read
    off the scripted machine; [sample_log] below shows they are the
    same on every machine. *)
Definition sample_trace (CheckCpuMigration : bool) (BarrierType : Barrier)
  : list Event :=
  log (snd (sample CheckCpuMigration BarrierType Tape.nop (Tape.boot []))).

(** Events of one start reading and of one end reading without core
    id, read off the scripted machine as well. *)
Definition start_trace (BarrierType : Barrier) : list Event :=
  log (snd (Clock.StartTime BarrierType (Tape.boot []))).

Definition end_trace (BarrierType : Barrier) : list Event :=
  log (snd (Clock.EndTime BarrierType (Tape.boot []))).

Definition is_read (e : Event) : bool :=
  match e with
  | EvRdtsc | EvRdtscp => true
  | _ => false
  end.

(** The configuration executes [rdtscp] in every iteration. *)
Definition requires_rdtscp (CheckCpuMigration : bool) (BarrierType : Barrier)
  : bool :=
  existsb (Event_eqb EvRdtscp) (sample_trace CheckCpuMigration BarrierType).

End Reading.

(* ================================================================= *)
(** ** The rest of utils/affinity.h, and the traces of the clock *)

Module Affinity.

(** [static_cast<int>] of a [long]: the low 32 bits, read as signed. *)
Definition to_int (z : Z) : Z := (z + 2 ^ 31) mod 2 ^ 32 - 2 ^ 31.

(** [GetCpuCoreCount], as a function of what
    [sysconf(_SC_NPROCESSORS_ONLN)] returned. *)
Definition GetCpuCoreCount (sysconf_result : Z) : Z :=
  let cores := to_int sysconf_result in
  if 0 <? cores then cores else 1.

End Affinity.

Module Traces.

(** Events of one reading with core id, most recent first, read off the
    scripted machine like [Reading.start_trace]. *)
Definition start_trace_cpu (BarrierType : Barrier) : list Event :=
  log (snd (Clock.StartTimeCpu BarrierType (Tape.boot []))).

Definition end_trace_cpu (BarrierType : Barrier) : list Event :=
  log (snd (Clock.EndTimeCpu BarrierType (Tape.boot []))).

Definition reads (l : list Event) : nat :=
  length (filter Reading.is_read l).

(** The example programs print [result.time_ - result.overhead_]. *)
Definition net_time (res : Bench.Result) : TimePoint :=
  wrap64 (Bench.time_ res - Bench.overhead_ res).

End Traces.

(* ================================================================= *)
(** * Properties *)

(** ** Fixed-width arithmetic *)

Lemma wrap64_range (z : Z) : is_u64 (wrap64 z).
Proof. unfold is_u64, wrap64. apply Z.mod_pos_bound. lia. Qed.

Lemma wrap64_small (z : Z) : is_u64 z -> wrap64 z = z.
Proof. unfold is_u64, wrap64. intros H. apply Z.mod_small. exact H. Qed.

Lemma wrap64_add_l (a b : Z) : wrap64 (wrap64 a + b) = wrap64 (a + b).
Proof. unfold wrap64. apply Z.add_mod_idemp_l. lia. Qed.

Lemma wrap32_range (z : Z) : 0 <= wrap32 z < 2 ^ 32.
Proof. unfold wrap32. apply Z.mod_pos_bound. lia. Qed.

Lemma lor_u64 (a b : Z) : is_u64 a -> is_u64 b -> is_u64 (Z.lor a b).
Proof.
  unfold is_u64. intros [Ha0 Ha] [Hb0 Hb].
  assert (H0 : 0 <= Z.lor a b) by (apply Z.lor_nonneg; split; assumption).
  split; [exact H0|].
  destruct (Z.eq_dec (Z.lor a b) 0) as [E|E]; [rewrite E; lia|].
  apply Z.log2_lt_pow2; [lia|].
  rewrite Z.log2_lor by assumption.
  apply Z.max_lub_lt.
  - destruct (Z.eq_dec a 0) as [->|]; [cbn; lia|].
    apply Z.log2_lt_pow2; lia.
  - destruct (Z.eq_dec b 0) as [->|]; [cbn; lia|].
    apply Z.log2_lt_pow2; lia.
Qed.

Lemma CombineRegisters_range (low high : Z) :
  is_u64 (Details.CombineRegisters (wrap32 low) (wrap32 high)).
Proof.
  unfold Details.CombineRegisters. apply lor_u64.
  - apply wrap64_range.
  - pose proof (wrap32_range low). unfold is_u64. lia.
Qed.

(** With 32-bit halves the combination is [high * 2^32 + low]. *)
Lemma CombineRegisters_value (low high : Z) :
  0 <= low < 2 ^ 32 -> 0 <= high < 2 ^ 32 ->
  Details.CombineRegisters low high = high * 2 ^ 32 + low.
Proof.
  intros Hl Hh. unfold Details.CombineRegisters.
  rewrite Z.shiftl_mul_pow2 by lia.
  rewrite wrap64_small by (unfold is_u64; nia).
  rewrite <- Z.shiftl_mul_pow2 by lia.
  assert (E : Z.land (Z.shiftl high 32) low = 0).
  { apply Z.bits_inj'. intros n Hn.
    rewrite Z.land_spec, Z.bits_0.
    destruct (Z.ltb_spec n 32).
    - rewrite Z.shiftl_spec_low by lia. reflexivity.
    - rewrite (Z.bits_above_log2 low n), andb_false_r; [reflexivity|lia|].
      destruct (Z.eq_dec low 0) as [->|]; [cbn; lia|].
      apply Z.lt_le_trans with 32; [apply Z.log2_lt_pow2; lia|lia]. }
  rewrite <- Z.lxor_lor by exact E.
  symmetry. apply Z.add_nocarry_lxor. exact E.
Qed.

(** ** The loops read their samples from the stream *)

Ltac unfold_clock :=
  unfold Clock.StartTime, Clock.StartTimeCpu, Clock.EndTime, Clock.EndTimeCpu,
    Clock.GetTimestamp, Clock.GetTimestampCpu, Details.CpuId, Details.LFence,
    Details.MFence, Details.Rdtsc, Details.Rdtscp, Details.Rdtscp0,
    invoke, bind, ret; cbn [world log fst snd].

Ltac read_hw :=
  repeat match goal with
    | |- context [hw_rdtsc ?w] =>
        let E := fresh "E" in
        destruct (hw_rdtsc w) as [[? ?] ?] eqn:E; cbn [world log fst snd]
    | |- context [hw_rdtscp ?w] =>
        let E := fresh "E" in
        destruct (hw_rdtscp w) as [[[? ?] ?] ?] eqn:E; cbn [world log fst snd]
    end.

Section StreamFacts.
Context {World : Type} {HW : Hardware World}.
Variable CheckCpuMigration : bool.
Variable BarrierType : Barrier.
Variable code : Code World.

Local Abbreviation sample := (Stream.sample CheckCpuMigration BarrierType code).
Local Abbreviation observations :=
  (Stream.observations CheckCpuMigration BarrierType code).
Local Abbreviation advance := (Stream.advance CheckCpuMigration BarrierType code).

Lemma sample_in_range (m : Machine World) :
  Stream.in_range (fst (sample m)).
Proof.
  unfold Stream.sample, Stream.in_range.
  destruct CheckCpuMigration, BarrierType; unfold_clock; read_hw;
    split; apply CombineRegisters_range.
Qed.

Lemma sample_cores (m : Machine World) :
  (CheckCpuMigration = false -> Stream.s_cores (fst (sample m)) = None) /\
  (CheckCpuMigration = true ->
   Stream.s_cores (fst (sample m)) =
     Some (snd (fst (Clock.StartTimeCpu BarrierType m)),
           snd (fst (Clock.EndTimeCpu BarrierType
                       (snd (invoke code
                               (snd (Clock.StartTimeCpu BarrierType m)))))))).
Proof.
  unfold Stream.sample.
  destruct CheckCpuMigration; (split; [|]); try discriminate; intros _.
  - destruct BarrierType; unfold_clock; read_hw; reflexivity.
  - destruct BarrierType; unfold_clock; read_hw; reflexivity.
Qed.

Lemma sample_log (m : Machine World) :
  log (snd (sample m)) =
    Reading.sample_trace CheckCpuMigration BarrierType ++ log m.
Proof.
  unfold Stream.sample.
  destruct CheckCpuMigration, BarrierType; unfold_clock; read_hw;
    reflexivity.
Qed.

Lemma observations_in_range (n : nat) (m : Machine World) :
  Forall Stream.in_range (observations n m).
Proof.
  revert m. induction n as [|n IH]; intros m; cbn.
  - constructor.
  - pose proof (sample_in_range m) as H.
    destruct (sample m) as [x m']. constructor; [exact H|apply IH].
Qed.

(** *** Bodies *)

Lemma Measure_sample (m : Machine World) :
  Bench.Measure CheckCpuMigration BarrierType code m =
    (negb (Stream.migrated (fst (sample m))),
     Stream.s_start (fst (sample m)), Stream.s_end (fst (sample m)),
     snd (sample m)).
Proof.
  unfold Bench.Measure, Stream.sample, Stream.migrated.
  destruct CheckCpuMigration, BarrierType; unfold_clock; read_hw;
    cbn; rewrite ?negb_involutive; reflexivity.
Qed.

Lemma MeasureMinLatency_body_sample (st : Bench.MinLoop) (m : Machine World) :
  Bench.MeasureMinLatency_body CheckCpuMigration BarrierType code st m =
    (Stream.min_step st (fst (sample m)), snd (sample m)).
Proof.
  unfold Bench.MeasureMinLatency_body, bind.
  rewrite Measure_sample. unfold Stream.min_step, Stream.accepted,
    Stream.monotonic.
  destruct (negb _ && _); reflexivity.
Qed.

Lemma MeasureStabilizedMinLatency_body_sample
    (st : Bench.StabLoop) (m : Machine World) :
  Bench.MeasureStabilizedMinLatency_body CheckCpuMigration BarrierType
    code st m =
    (Stream.stab_step st (fst (sample m)), snd (sample m)).
Proof.
  unfold Bench.MeasureStabilizedMinLatency_body, bind.
  rewrite Measure_sample. unfold Stream.stab_step, Stream.accepted,
    Stream.monotonic.
  destruct (negb _ && _); reflexivity.
Qed.

Lemma Run_measure_body_sample
    (overhead : TimePoint) (st : Bench.RunLoop) (m : Machine World) :
  Bench.Run_measure_body CheckCpuMigration BarrierType code overhead st m =
    (Stream.run_step overhead st (fst (sample m)), snd (sample m)).
Proof.
  unfold Bench.Run_measure_body, Stream.sample, Stream.run_step,
    Stream.migrated.
  destruct CheckCpuMigration, BarrierType; unfold_clock; read_hw;
    cbn; try reflexivity;
    match goal with |- context [negb (?a =? ?b)] =>
      destruct (negb (a =? b)); reflexivity end.
Qed.

Lemma Run_warmup_body_sample
    (locals : TimePoint * TimePoint) (m : Machine World) :
  Bench.Run_warmup_body CheckCpuMigration BarrierType code locals m =
    (Stream.s_start (fst (sample m)), Stream.s_end (fst (sample m)),
     snd (sample m)).
Proof.
  unfold Bench.Run_warmup_body, Stream.sample.
  destruct CheckCpuMigration, BarrierType; unfold_clock; read_hw;
    reflexivity.
Qed.

End StreamFacts.

(** ** Lists of samples *)

Section ListFacts.
Import Stream Reading.

Lemma needed_kept (P : Sample -> bool) :
  forall (l : list Sample) (n k : nat),
    needed P n l = Some k ->
    filter P (firstn k l) = kept P n l /\ length (kept P n l) = n /\
    (k <= length l)%nat.
Proof.
  unfold kept.
  induction l as [|x l IH]; intros n k H.
  - destruct n; cbn in H; [|discriminate].
    injection H as <-. cbn. auto.
  - destruct n as [|n].
    + cbn in H. injection H as <-. cbn. auto with arith.
    + cbn [needed] in H.
      destruct (needed P (if P x then n else S n) l) as [k'|] eqn:E;
        [|discriminate].
      injection H as <-. apply IH in E. destruct E as (E1 & E2 & E3).
      cbn [firstn filter length].
      destruct (P x); cbn [firstn length]; rewrite E1;
        repeat split; try lia; try reflexivity.
      exact E2.
Qed.

Lemma needed_none (P : Sample -> bool) :
  forall (l : list Sample) (n : nat),
    needed P n l = None <-> (length (filter P l) < n)%nat.
Proof.
  induction l as [|x l IH]; intros n.
  - destruct n; cbn; split; intros H; try discriminate; try lia.
    reflexivity.
  - destruct n as [|n]; cbn [needed filter].
    + split; intros H; [discriminate|lia].
    + specialize (IH (if P x then n else S n)).
      destruct (needed P (if P x then n else S n) l) as [k|].
      * split; [discriminate|]. intros H.
        assert (H' : @None nat = None) by reflexivity.
        destruct IH as [_ IH]. destruct (P x); cbn [length] in H;
          (enough (Some k = None) by discriminate); apply IH; lia.
      * split; [intros _|reflexivity].
        destruct IH as [IH _]. specialize (IH eq_refl).
        destruct (P x); cbn [length]; lia.
Qed.

Lemma needed_some (P : Sample -> bool) (l : list Sample) (n : nat) :
  (n <= length (filter P l))%nat -> exists k, needed P n l = Some k.
Proof.
  intros H. destruct (needed P n l) as [k|] eqn:E; [eauto|].
  apply needed_none in E. lia.
Qed.

Lemma Forall_firstn_range (k : nat) (l : list Sample) :
  Forall in_range l -> Forall in_range (firstn k l).
Proof.
  intros H. rewrite <- (firstn_skipn k l) in H.
  apply Forall_app in H. tauto.
Qed.

Lemma Forall_firstn_true (P : Sample -> bool) (k : nat) (l : list Sample) :
  Forall (fun x => P x = true) l ->
  Forall (fun x => P x = true) (firstn k l).
Proof.
  intros H. rewrite <- (firstn_skipn k l) in H.
  apply Forall_app in H. tauto.
Qed.

Lemma min_duration_le_max (l : list Sample) :
  min_duration l <= TimePoint_max.
Proof.
  unfold min_duration. induction l as [|x l IH]; cbn; [lia|].
  apply Z.le_trans with (2 := IH). apply Z.le_min_r.
Qed.

(** A duration accepted by a loop is the plain difference of the two
    readings: no wrap-around occurs. *)
Lemma accepted_duration (x : Sample) :
  in_range x -> monotonic x = true ->
  wrap64 (s_end x - s_start x) = duration x /\ 0 < duration x < 2 ^ 64.
Proof.
  unfold in_range, monotonic, duration, is_u64. intros [Hs He] Hm.
  apply Z.ltb_lt in Hm. split; [|lia].
  apply wrap64_small. unfold is_u64. lia.
Qed.

End ListFacts.

(** ** Loops *)

Section DriveFacts.
Context {World : Type} {HW : Hardware World}.
Variable CheckCpuMigration : bool.
Variable BarrierType : Barrier.
Variable code : Code World.
Import Stream Reading.

Local Abbreviation sample := (Stream.sample CheckCpuMigration BarrierType code).
Local Abbreviation observations :=
  (Stream.observations CheckCpuMigration BarrierType code).
Local Abbreviation advance := (Stream.advance CheckCpuMigration BarrierType code).
Local Abbreviation drive := (Stream.drive CheckCpuMigration BarrierType code).

Lemma drive_consume (St : Type) (continue : St -> bool)
    (step : St -> Sample -> St) :
  forall (fuel : nat) (st : St) (m : Machine World),
    drive St continue step fuel st m =
      match consume St continue step (observations fuel m) st with
      | Some (st', k) => Done (st', advance k m)
      | None => OutOfFuel
      end.
Proof.
  induction fuel as [|fuel IH]; intros st m.
  - cbn. destruct (continue st); reflexivity.
  - cbn [Stream.drive Stream.observations Stream.advance].
    destruct (sample m) as [x m'] eqn:E. cbn [consume snd].
    destruct (continue st); [|reflexivity].
    rewrite IH.
    destruct (consume St continue step (observations fuel m') (step st x))
      as [[st' k]|]; [|reflexivity].
    cbn [Stream.advance]. rewrite E. reflexivity.
Qed.

(** The source loops are instances of [drive]. *)

Lemma MeasureMinLatency_loop_drive (N : Z) :
  forall (fuel : nat) (st : Bench.MinLoop) (m : Machine World),
    Bench.MeasureMinLatency_loop CheckCpuMigration BarrierType fuel N
      code st m =
    drive _ (fun st => Bench.ml_i st <? N) min_step fuel st m.
Proof.
  induction fuel as [|fuel IH]; intros st m; cbn; [reflexivity|].
  rewrite MeasureMinLatency_body_sample.
  destruct (sample m) as [x m']. cbn. rewrite IH. reflexivity.
Qed.

Lemma MeasureStabilizedMinLatency_loop_drive (N thr : Z) :
  forall (fuel : nat) (st : Bench.StabLoop) (m : Machine World),
    Bench.MeasureStabilizedMinLatency_loop CheckCpuMigration BarrierType
      fuel N thr code st m =
    drive _ (fun st => (Bench.sl_i st <? N)
                       && (Bench.sl_min_latency_cycles_number st <? thr))
      stab_step fuel st m.
Proof.
  induction fuel as [|fuel IH]; intros st m; cbn; [reflexivity|].
  rewrite MeasureStabilizedMinLatency_body_sample.
  destruct (sample m) as [x m']. cbn. rewrite IH. reflexivity.
Qed.

Lemma Run_measure_drive (N : Z) (overhead : TimePoint) :
  forall (fuel : nat) (st : Bench.RunLoop) (m : Machine World),
    Bench.Run_measure CheckCpuMigration BarrierType fuel N code overhead
      st m =
    drive _ (fun st => Bench.rl_r st <? N) (run_step overhead) fuel st m.
Proof.
  induction fuel as [|fuel IH]; intros st m; cbn; [reflexivity|].
  rewrite Run_measure_body_sample.
  destruct (sample m) as [x m']. cbn. rewrite IH. reflexivity.
Qed.

End DriveFacts.

(** Loops that count the samples satisfying [P] up to [N]. *)
Section Counting.
Import Stream Reading.
Variable St : Type.
Variable count : St -> Z.
Variable N : Z.
Variable P : Sample -> bool.
Variable Q : Sample -> Prop.
Variable step : St -> Sample -> St.
Hypothesis step_counts :
  forall st x, Q x -> P x = true -> 0 <= count st < N ->
               count (step st x) = count st + 1.
Hypothesis step_skips :
  forall st x, Q x -> P x = false -> count (step st x) = count st.

Lemma needed_after_step (st : St) (x : Sample) :
  Q x -> 0 <= count st < N ->
  (if P x then Z.to_nat (N - count st - 1)
   else S (Z.to_nat (N - count st - 1)))
  = Z.to_nat (N - count (step st x)) /\
  0 <= count (step st x) <= N.
Proof.
  intros Hq Hc. destruct (P x) eqn:Px.
  - rewrite step_counts by (auto; lia). split; [f_equal|]; lia.
  - rewrite step_skips by auto. lia.
Qed.

Lemma consume_counting :
  forall (l : list Sample) (st : St),
    Forall Q l ->
    0 <= count st <= N ->
    consume St (fun st => count st <? N) step l st =
      match needed P (Z.to_nat (N - count st)) l with
      | Some k => Some (fold_left step (firstn k l) st, k)
      | None => None
      end.
Proof.
  induction l as [|x l IH]; intros st Hq Hc.
  - cbn. destruct (Z.ltb_spec (count st) N) as [Hlt|Hge].
    + replace (Z.to_nat (N - count st)) with (S (Z.to_nat (N - count st - 1)))
        by lia. reflexivity.
    + replace (N - count st) with 0 by lia. reflexivity.
  - inversion Hq as [|? ? Hx Hl]; subst.
    cbn [consume]. destruct (Z.ltb_spec (count st) N) as [Hlt|Hge].
    + replace (Z.to_nat (N - count st)) with (S (Z.to_nat (N - count st - 1)))
        by lia.
      cbn [needed].
      destruct (needed_after_step st x Hx) as [Hn Hc']; [lia|].
      rewrite Hn, IH by assumption.
      destruct (needed P (Z.to_nat (N - count (step st x))) l);
        reflexivity.
    + replace (N - count st) with 0 by lia. reflexivity.
Qed.

Lemma count_after :
  forall (l : list Sample) (st : St) (k : nat),
    Forall Q l ->
    0 <= count st <= N ->
    needed P (Z.to_nat (N - count st)) l = Some k ->
    count (fold_left step (firstn k l) st) = N.
Proof.
  induction l as [|x l IH]; intros st k Hq Hc H.
  - destruct (Z.to_nat (N - count st)) eqn:E; cbn in H; [|discriminate].
    injection H as <-. cbn. lia.
  - inversion Hq as [|? ? Hx Hl]; subst.
    destruct (Z.ltb_spec (count st) N) as [Hlt|Hge].
    + replace (Z.to_nat (N - count st)) with (S (Z.to_nat (N - count st - 1)))
        in H by lia.
      cbn [needed] in H.
      destruct (needed_after_step st x Hx) as [Hn Hc']; [lia|].
      rewrite Hn in H.
      destruct (needed P (Z.to_nat (N - count (step st x))) l) as [k'|] eqn:E';
        [|discriminate].
      injection H as <-. cbn [firstn fold_left]. apply IH; assumption.
    + replace (N - count st) with 0 in H by lia.
      cbn in H. injection H as <-. cbn. lia.
Qed.

End Counting.

(** ** What the loops compute *)

Section LoopFacts.
Context {World : Type} {HW : Hardware World}.
Variable CheckCpuMigration : bool.
Variable BarrierType : Barrier.
Variable code : Code World.
Import Stream Reading.

Local Abbreviation sample := (Stream.sample CheckCpuMigration BarrierType code).
Local Abbreviation observations :=
  (Stream.observations CheckCpuMigration BarrierType code).
Local Abbreviation advance := (Stream.advance CheckCpuMigration BarrierType code).

(** *** Calibration *)

Lemma min_step_accepted (st : Bench.MinLoop) (x : Sample) :
  in_range x -> accepted x = true ->
  min_step st x =
    Bench.mkMinLoop (wrap64 (Bench.ml_i st + 1))
      (Z.min (Bench.ml_min_latency st) (duration x)).
Proof.
  intros Hr Ha. unfold min_step. rewrite Ha.
  unfold accepted in Ha. apply andb_prop in Ha as [_ Hm].
  destruct (accepted_duration x Hr Hm) as [-> _]. reflexivity.
Qed.

Lemma min_step_rejected (st : Bench.MinLoop) (x : Sample) :
  accepted x = false -> min_step st x = st.
Proof. intros Ha. unfold min_step. rewrite Ha. reflexivity. Qed.

Lemma min_fold :
  forall (l : list Sample) (st : Bench.MinLoop),
    Forall in_range l ->
    Bench.ml_min_latency st <= TimePoint_max ->
    Bench.ml_min_latency (fold_left min_step l st) =
      Z.min (Bench.ml_min_latency st) (min_duration (filter accepted l)).
Proof.
  induction l as [|x l IH]; intros st Hr Hmax.
  - cbn [fold_left filter]. change (min_duration []) with TimePoint_max.
    lia.
  - inversion Hr as [|? ? Hx Hl]; subst. cbn [fold_left filter].
    destruct (accepted x) eqn:Ha.
    + rewrite min_step_accepted by assumption.
      rewrite IH;
        [|assumption|cbn [Bench.ml_min_latency]; lia].
      cbn [Bench.ml_min_latency].
      change (min_duration (x :: filter accepted l))
        with (Z.min (duration x) (min_duration (filter accepted l))).
      lia.
    + rewrite min_step_rejected by assumption. apply IH; assumption.
Qed.

Lemma MeasureMinLatency_spec (fuel : nat) (N : Z) (m : Machine World) :
  0 <= N < 2 ^ 64 ->
  Bench.MeasureMinLatency CheckCpuMigration BarrierType fuel N code m =
    match needed accepted (Z.to_nat N) (observations fuel m) with
    | Some k =>
        Done (min_duration (kept accepted (Z.to_nat N) (observations fuel m)),
              advance k m)
    | None => OutOfFuel
    end.
Proof.
  intros HN. unfold Bench.MeasureMinLatency.
  rewrite MeasureMinLatency_loop_drive, drive_consume.
  rewrite (consume_counting _ Bench.ml_i N accepted in_range).
  - cbn [Bench.ml_i]. rewrite Z.sub_0_r.
    destruct (needed accepted (Z.to_nat N) (observations fuel m))
      as [k|] eqn:E; [|reflexivity].
    cbn [outcome_map fst snd]. rewrite min_fold.
    + apply needed_kept in E as (E1 & _ & _). rewrite E1.
      cbn [Bench.ml_min_latency].
      pose proof (min_duration_le_max
                    (kept accepted (Z.to_nat N) (observations fuel m))).
      rewrite Z.min_r by assumption. reflexivity.
    + apply Forall_firstn_range, observations_in_range.
    + cbn. lia.
  - intros st x _ Hx Hc. unfold min_step. rewrite Hx. cbn.
    apply wrap64_small. unfold is_u64. lia.
  - intros st x _ Hx. rewrite min_step_rejected by assumption. reflexivity.
  - apply observations_in_range.
  - cbn. lia.
Qed.

(** *** The measurement loop of [Run] *)

Lemma run_step_cases (overhead : TimePoint) (st : Bench.RunLoop) (x : Sample) :
  in_range x ->
  run_step overhead st x =
    if retained overhead x then
      Bench.mkRunLoop (wrap64 (Bench.rl_r st + 1))
        (wrap64 (Bench.rl_summary_time st + duration x))
        (s_start x) (s_end x)
    else
      Bench.mkRunLoop (Bench.rl_r st) (Bench.rl_summary_time st)
        (s_start x) (s_end x).
Proof.
  intros Hr. unfold run_step, retained, accepted, Bench.Run_accumulate.
  destruct (migrated x); [reflexivity|]. cbn [negb andb].
  destruct (monotonic x) eqn:Hm; unfold monotonic in Hm; rewrite Hm;
    [|reflexivity].
  destruct (accepted_duration x Hr Hm) as [-> _]. cbn [andb].
  destruct (overhead <? duration x); reflexivity.
Qed.

Lemma run_fold (overhead : TimePoint) :
  forall (l : list Sample) (st : Bench.RunLoop),
    Forall in_range l ->
    is_u64 (Bench.rl_summary_time st) ->
    Bench.rl_summary_time (fold_left (run_step overhead) l st) =
      wrap64 (Bench.rl_summary_time st
              + sum_durations (filter (retained overhead) l)).
Proof.
  induction l as [|x l IH]; intros st Hr Hs.
  - cbn. rewrite Z.add_0_r. symmetry. apply wrap64_small. exact Hs.
  - inversion Hr as [|? ? Hx Hl]; subst. cbn [fold_left filter].
    rewrite run_step_cases by assumption.
    destruct (retained overhead x) eqn:R.
    + rewrite IH; [|assumption|apply wrap64_range].
      cbn [Bench.rl_summary_time]. rewrite wrap64_add_l.
      change (sum_durations (x :: filter (retained overhead) l))
        with (duration x + sum_durations (filter (retained overhead) l)).
      f_equal. lia.
    + rewrite IH; [reflexivity|assumption|exact Hs].
Qed.

Lemma Run_measure_spec (fuel : nat) (N : Z) (overhead a b : TimePoint)
    (m : Machine World) :
  0 <= N < 2 ^ 64 ->
  match needed (retained overhead) (Z.to_nat N) (observations fuel m) with
  | Some k =>
      exists st,
        Bench.Run_measure CheckCpuMigration BarrierType fuel N code overhead
          (Bench.mkRunLoop 0 0 a b) m = Done (st, advance k m) /\
        Bench.rl_r st = N /\
        Bench.rl_summary_time st =
          wrap64 (sum_durations
                    (kept (retained overhead) (Z.to_nat N)
                       (observations fuel m)))
  | None =>
      Bench.Run_measure CheckCpuMigration BarrierType fuel N code overhead
        (Bench.mkRunLoop 0 0 a b) m = OutOfFuel
  end.
Proof.
  intros HN.
  pose proof (observations_in_range CheckCpuMigration BarrierType code
                fuel m) as Hobs.
  assert (Hcount : forall st x, in_range x -> retained overhead x = true ->
            0 <= Bench.rl_r st < N ->
            Bench.rl_r (run_step overhead st x) = Bench.rl_r st + 1).
  { intros st x Hq Hx Hc. rewrite run_step_cases, Hx by assumption. cbn.
    apply wrap64_small. unfold is_u64. lia. }
  assert (Hskip : forall st x, in_range x -> retained overhead x = false ->
            Bench.rl_r (run_step overhead st x) = Bench.rl_r st).
  { intros st x Hq Hx. rewrite run_step_cases, Hx by assumption.
    reflexivity. }
  rewrite Run_measure_drive, drive_consume.
  rewrite (consume_counting _ Bench.rl_r N (retained overhead) in_range)
    by (auto; cbn; lia).
  cbn [Bench.rl_r]. rewrite Z.sub_0_r.
  destruct (needed (retained overhead) (Z.to_nat N) (observations fuel m))
    as [k|] eqn:E; [|reflexivity].
  eexists. split; [reflexivity|]. split.
  - apply (count_after _ Bench.rl_r N (retained overhead) in_range);
      auto; cbn [Bench.rl_r]; [lia|].
    rewrite Z.sub_0_r. exact E.
  - rewrite run_fold.
    + apply needed_kept in E as (E1 & _ & _). rewrite E1. reflexivity.
    + apply Forall_firstn_range. exact Hobs.
    + cbn. unfold is_u64. lia.
Qed.

End LoopFacts.

(** ** Run *)

Section RunFacts.
Context {World : Type} {HW : Hardware World}.
Variable CheckCpuMigration : bool.
Variable BarrierType : Barrier.
Variable code : Code World.
Import Stream Reading.

Local Abbreviation sample := (Stream.sample CheckCpuMigration BarrierType code).
Local Abbreviation observations :=
  (Stream.observations CheckCpuMigration BarrierType code).
Local Abbreviation advance := (Stream.advance CheckCpuMigration BarrierType code).

Lemma Run_warmup_advance (n : nat) :
  forall (locals : TimePoint * TimePoint) (m : Machine World),
    snd (Bench.Run_warmup CheckCpuMigration BarrierType n code locals m) =
      advance n m.
Proof.
  induction n as [|n IH]; intros locals m; [reflexivity|].
  cbn [Bench.Run_warmup Stream.advance]. unfold bind.
  rewrite Run_warmup_body_sample. apply IH.
Qed.

Lemma Run_prologue_machine (locals : TimePoint * TimePoint)
    (settings : Bench.Settings) (m : Machine World) :
  snd (Bench.Run_prologue CheckCpuMigration BarrierType locals code
         settings m) =
    after_warmup CheckCpuMigration BarrierType code settings m.
Proof.
  unfold Bench.Run_prologue, after_warmup.
  destruct (Details.PinThread (Bench.cpu_ settings) m) as [ok m0].
  apply Run_warmup_advance.
Qed.

Lemma PinThread_log (cpu : Z) (m : Machine World) :
  log (snd (Details.PinThread cpu m)) = log m.
Proof.
  unfold Details.PinThread. destruct (cpu <? 0); [reflexivity|].
  destruct (hw_sched_setaffinity cpu (world m)). reflexivity.
Qed.

Lemma count_event_app (e : Event) (a b : list Event) :
  count_event e (a ++ b) = (count_event e a + count_event e b)%nat.
Proof. unfold count_event. rewrite filter_app, length_app. reflexivity. Qed.

Lemma sample_trace_code :
  count_event EvCode (sample_trace CheckCpuMigration BarrierType) = 1%nat.
Proof. destruct CheckCpuMigration, BarrierType; reflexivity. Qed.

Lemma sample_trace_reads :
  length (filter is_read (sample_trace CheckCpuMigration BarrierType))
  = 2%nat.
Proof. destruct CheckCpuMigration, BarrierType; reflexivity. Qed.

Lemma advance_code_count (n : nat) :
  forall m : Machine World,
    count_event EvCode (log (advance n m)) =
      (n + count_event EvCode (log m))%nat.
Proof.
  induction n as [|n IH]; intros m; [reflexivity|].
  cbn [Stream.advance]. rewrite IH, sample_log, count_event_app.
  rewrite sample_trace_code. lia.
Qed.

Lemma kept_length (P : Sample -> bool) (n : nat) (l : list Sample) :
  length (kept P n l) = n <-> exists k, needed P n l = Some k.
Proof.
  split.
  - intros H. apply needed_some. unfold kept in H.
    rewrite length_firstn in H. lia.
  - intros [k H]. apply needed_kept in H. tauto.
Qed.

(** [Run] on settings that satisfy the precondition. *)
Lemma Run_from_spec (locals : TimePoint * TimePoint) (fuel : nat)
    (b : Bench.TSCBenchmarking) (settings : Bench.Settings)
    (m : Machine World) :
  1 <= Bench.cycles_number_ settings < 2 ^ 64 ->
  Bench.Run_from CheckCpuMigration BarrierType locals fuel b code settings m
  = let m1 := after_warmup CheckCpuMigration BarrierType code settings m in
    let n := Z.to_nat (Bench.cycles_number_ settings) in
    match needed (retained (Bench.tsc_overhead_ b)) n (observations fuel m1)
    with
    | Some k =>
        Done (Bench.mkResult
                (wrap64 (sum_durations
                           (kept (retained (Bench.tsc_overhead_ b)) n
                              (observations fuel m1)))
                 / Bench.cycles_number_ settings)
                (Bench.tsc_overhead_ b),
              advance k m1)
    | None => OutOfFuel
    end.
Proof.
  intros HN. unfold Bench.Run_from.
  pose proof (Run_prologue_machine locals settings m) as Hm.
  destruct (Bench.Run_prologue CheckCpuMigration BarrierType locals code
              settings m) as [locals1 m1].
  cbn [snd] in Hm. subst m1. cbv zeta.
  pose proof (Run_measure_spec CheckCpuMigration BarrierType code fuel
                (Bench.cycles_number_ settings) (Bench.tsc_overhead_ b)
                (fst locals1) (snd locals1)
                (after_warmup CheckCpuMigration BarrierType code settings m))
    as H.
  destruct (needed (retained (Bench.tsc_overhead_ b))
              (Z.to_nat (Bench.cycles_number_ settings))
              (observations fuel
                 (after_warmup CheckCpuMigration BarrierType code settings m)))
    as [k|].
  - destruct H as (st & -> & _ & Hs); [lia|].
    destruct (Z.eqb_spec (Bench.cycles_number_ settings) 0); [lia|].
    rewrite Hs. reflexivity.
  - rewrite H by lia. reflexivity.
Qed.

(** [Run] with [cycles_number_ = 0]: the loop is skipped and the
    division faults, whatever the fuel. *)
Lemma Run_from_zero (locals : TimePoint * TimePoint) (fuel : nat)
    (b : Bench.TSCBenchmarking) (settings : Bench.Settings)
    (m : Machine World) :
  Bench.cycles_number_ settings = 0 ->
  Bench.Run_from CheckCpuMigration BarrierType locals fuel b code settings m
  = DivisionByZero.
Proof.
  intros H0. unfold Bench.Run_from.
  destruct (Bench.Run_prologue CheckCpuMigration BarrierType locals code
              settings m) as [locals1 m1].
  rewrite H0. destruct fuel; reflexivity.
Qed.

Lemma retained_duration (overhead : TimePoint) (x : Sample) :
  retained overhead x = true ->
  migrated x = false /\ s_start x < s_end x /\ overhead < duration x.
Proof.
  unfold retained, accepted, monotonic. intros H.
  apply andb_prop in H as [H Ho]. apply andb_prop in H as [Hg Hm].
  apply Z.ltb_lt in Ho, Hm. destruct (migrated x); [discriminate|].
  auto.
Qed.

Lemma Run_measure_locals (fuel : nat) (N : Z) (overhead : TimePoint)
    (r sum a b a' b' : Z) (m : Machine World) :
  outcome_map
    (fun p => (Bench.rl_r (fst p), Bench.rl_summary_time (fst p), snd p))
    (Bench.Run_measure CheckCpuMigration BarrierType fuel N code overhead
       (Bench.mkRunLoop r sum a b) m) =
  outcome_map
    (fun p => (Bench.rl_r (fst p), Bench.rl_summary_time (fst p), snd p))
    (Bench.Run_measure CheckCpuMigration BarrierType fuel N code overhead
       (Bench.mkRunLoop r sum a' b') m).
Proof.
  destruct fuel as [|fuel]; cbn [Bench.Run_measure Bench.rl_r];
    destruct (r <? N); reflexivity.
Qed.

Lemma Run_measure_exit (fuel : nat) (N : Z) (overhead : TimePoint)
    (st st' : Bench.RunLoop) (m m' : Machine World) :
  0 <= Bench.rl_r st <= N -> N < 2 ^ 64 ->
  Bench.Run_measure CheckCpuMigration BarrierType fuel N code overhead st m
    = Done (st', m') ->
  Bench.rl_r st' = N.
Proof.
  intros Hr HN H.
  pose proof (observations_in_range CheckCpuMigration BarrierType code
                fuel m) as Hobs.
  assert (Hcount : forall st x, in_range x -> retained overhead x = true ->
            0 <= Bench.rl_r st < N ->
            Bench.rl_r (run_step overhead st x) = Bench.rl_r st + 1).
  { intros s x Hq Hx Hc. rewrite run_step_cases, Hx by assumption. cbn.
    apply wrap64_small. unfold is_u64. lia. }
  assert (Hskip : forall st x, in_range x -> retained overhead x = false ->
            Bench.rl_r (run_step overhead st x) = Bench.rl_r st).
  { intros s x Hq Hx. rewrite run_step_cases, Hx by assumption.
    reflexivity. }
  rewrite Run_measure_drive, drive_consume in H.
  rewrite (consume_counting _ Bench.rl_r N (retained overhead) in_range)
    in H by auto.
  destruct (needed (retained overhead) (Z.to_nat (N - Bench.rl_r st))
              (observations fuel m)) as [k|] eqn:E; [|discriminate].
  injection H as <- _.
  apply (count_after _ Bench.rl_r N (retained overhead) in_range); auto.
Qed.

Lemma kept_Forall (P : Sample -> bool) (n : nat) (l : list Sample) :
  Forall (fun x => P x = true) (kept P n l).
Proof.
  unfold kept. apply Forall_firstn_true.
  apply Forall_forall. intros x Hx. apply filter_In in Hx. tauto.
Qed.

(** Every retained duration exceeds the overhead, hence so does their
    sum, once per sample. *)
Lemma sum_durations_lower (overhead : TimePoint) (l : list Sample) :
  Forall (fun x => retained overhead x = true) l ->
  Z.of_nat (length l) * (overhead + 1) <= sum_durations l.
Proof.
  induction 1 as [|x l Hx Hl IH].
  - cbn. lia.
  - change (sum_durations (x :: l)) with (duration x + sum_durations l).
    apply retained_duration in Hx as (_ & _ & Hx).
    cbn [length]. lia.
Qed.

Lemma sum_durations_nonneg (overhead : TimePoint) (l : list Sample) :
  Forall (fun x => retained overhead x = true) l ->
  0 <= sum_durations l.
Proof.
  induction 1 as [|x l Hx Hl IH].
  - cbn. lia.
  - change (sum_durations (x :: l)) with (duration x + sum_durations l).
    apply retained_duration in Hx as (_ & Hx & _).
    unfold duration. lia.
Qed.

End RunFacts.

(** *** The result of [Run] *)

(** C1 (as amended).  For settings with [cycles_number_ >= 1], [Run]
    returns a result exactly when the machine yields that many retained
    samples; its [time_] is the sum of the retained durations, reduced
    modulo 2^64 as the accumulator is, divided by [cycles_number_], and
    its [overhead_] is the calibrated [tsc_overhead_].  No scaling is
    applied to either value.  When the sum fits in 64 bits it is the
    exact sum. *)
Theorem Run_result
    {World : Type} {HW : Hardware World}
    (CheckCpuMigration : bool) (BarrierType : Barrier) (fuel : nat)
    (b : Bench.TSCBenchmarking) (code : Code World)
    (settings : Bench.Settings) (m : Machine World) :
  1 <= Bench.cycles_number_ settings < 2 ^ 64 ->
  let n := Z.to_nat (Bench.cycles_number_ settings) in
  let retained_samples :=
    Reading.kept (Stream.retained (Bench.tsc_overhead_ b)) n
      (Stream.observations CheckCpuMigration BarrierType code fuel
         (Reading.after_warmup CheckCpuMigration BarrierType code settings m))
  in
  (length retained_samples = n ->
   exists m',
     Bench.Run CheckCpuMigration BarrierType fuel b code settings m =
       Done (Bench.mkResult
               (wrap64 (Stream.sum_durations retained_samples)
                / Bench.cycles_number_ settings)
               (Bench.tsc_overhead_ b), m')) /\
  (forall res m',
     Bench.Run CheckCpuMigration BarrierType fuel b code settings m =
       Done (res, m') ->
     length retained_samples = n /\
     Bench.time_ res =
       wrap64 (Stream.sum_durations retained_samples)
       / Bench.cycles_number_ settings /\
     Bench.overhead_ res = Bench.tsc_overhead_ b) /\
  (Stream.sum_durations retained_samples < 2 ^ 64 ->
   wrap64 (Stream.sum_durations retained_samples) =
     Stream.sum_durations retained_samples).
Proof.
  intros HN n retained_samples. unfold Bench.Run.
  rewrite Run_from_spec by exact HN. cbv zeta. fold n.
  pose proof (kept_length (Stream.retained (Bench.tsc_overhead_ b)) n
                (Stream.observations CheckCpuMigration BarrierType code fuel
                   (Reading.after_warmup CheckCpuMigration BarrierType code
                      settings m))) as HK.
  fold retained_samples in HK |- *.
  split; [|split].
  - intros Hlen. apply HK in Hlen as [k ->]. eauto.
  - intros res m' H.
    destruct (Reading.needed _ n _) as [k|] eqn:E; [|discriminate].
    injection H as <- <-. cbn. split; [|auto]. apply HK. eauto.
  - intros Hlt. apply wrap64_small. split; [|exact Hlt].
    apply (sum_durations_nonneg (Bench.tsc_overhead_ b)).
    apply kept_Forall.
Qed.

(** C10.  Under the precondition [cycles_number_ >= 1] the division that
    computes [time_] is never by zero; with [cycles_number_ = 0] it
    always is, so [Run] has no result. *)
Theorem Run_division
    {World : Type} {HW : Hardware World}
    (CheckCpuMigration : bool) (BarrierType : Barrier) (fuel : nat)
    (b : Bench.TSCBenchmarking) (code : Code World)
    (settings : Bench.Settings) (m : Machine World) :
  (1 <= Bench.cycles_number_ settings < 2 ^ 64 ->
   Bench.Run CheckCpuMigration BarrierType fuel b code settings m
   <> DivisionByZero) /\
  (Bench.cycles_number_ settings = 0 ->
   Bench.Run CheckCpuMigration BarrierType fuel b code settings m
   = DivisionByZero).
Proof.
  unfold Bench.Run. split.
  - intros HN. rewrite Run_from_spec by exact HN. cbv zeta.
    destruct (Reading.needed _ _ _); discriminate.
  - apply Run_from_zero.
Qed.

(** C8 (as amended).  For an object whose data members hold 64-bit
    values, every completed call to [Run] returns [overhead_ >= 0]; and
    whenever the sum of the retained durations fits in 64 bits,
    [time_ > overhead_], hence [time_ >= overhead_]. *)
Theorem Run_time_above_overhead
    {World : Type} {HW : Hardware World}
    (CheckCpuMigration : bool) (BarrierType : Barrier) (fuel : nat)
    (b : Bench.TSCBenchmarking) (code : Code World)
    (settings : Bench.Settings) (m : Machine World)
    (res : Bench.Result) (m' : Machine World) :
  Bench.wf_Bench b ->
  Bench.wf_Settings settings ->
  Bench.Run CheckCpuMigration BarrierType fuel b code settings m =
    Done (res, m') ->
  0 <= Bench.overhead_ res /\
  (Stream.sum_durations
     (Reading.kept (Stream.retained (Bench.tsc_overhead_ b))
        (Z.to_nat (Bench.cycles_number_ settings))
        (Stream.observations CheckCpuMigration BarrierType code fuel
           (Reading.after_warmup CheckCpuMigration BarrierType code
              settings m))) < 2 ^ 64 ->
   Bench.overhead_ res < Bench.time_ res).
Proof.
  intros [Hb _] (HN & _ & _) H. unfold Bench.Run in H.
  destruct (Z.eq_dec (Bench.cycles_number_ settings) 0) as [E0|E0].
  - rewrite Run_from_zero in H by exact E0. discriminate.
  - rewrite Run_from_spec in H by lia. cbv zeta in H.
    destruct (Reading.needed _ _ _) as [k|] eqn:E; [|discriminate].
    injection H as <- <-. cbn [Bench.overhead_ Bench.time_].
    split; [apply Hb|]. intros Hsum.
    pose proof (kept_Forall (Stream.retained (Bench.tsc_overhead_ b))
                  (Z.to_nat (Bench.cycles_number_ settings))
                  (Stream.observations CheckCpuMigration BarrierType code
                     fuel
                     (Reading.after_warmup CheckCpuMigration BarrierType
                        code settings m))) as HF.
    pose proof (sum_durations_lower (Bench.tsc_overhead_ b) _ HF) as HL.
    pose proof (sum_durations_nonneg (Bench.tsc_overhead_ b) _ HF) as H0.
    apply needed_kept in E as (_ & Hlen & _).
    rewrite Hlen, Z2Nat.id in HL by lia.
    rewrite wrap64_small by (split; assumption).
    apply Z.lt_le_trans with (Bench.tsc_overhead_ b + 1); [lia|].
    apply Z.div_le_lower_bound; lia.
Qed.

(** C2 (as amended).  One turn of the measurement loop counts the sample
    (increments [r]) and adds its duration to the running sum if and only
    if the sample is not rejected for migration (never the case when
    detection is disabled), its end reading is strictly greater than its
    start reading, and [end - start] is strictly greater than the
    overhead floor.  Any other sample leaves counter and sum unchanged,
    and the loop moves on to the next sample. *)
Theorem Run_counts_sample
    {World : Type} {HW : Hardware World}
    (CheckCpuMigration : bool) (BarrierType : Barrier)
    (code : Code World) (overhead : TimePoint)
    (st : Bench.RunLoop) (m : Machine World) :
  0 <= Bench.rl_r st < 2 ^ 64 - 1 ->
  let x := fst (Stream.sample CheckCpuMigration BarrierType code m) in
  let st' := fst (Bench.Run_measure_body CheckCpuMigration BarrierType code
                    overhead st m) in
  let valid :=
    Stream.migrated x = false /\
    Stream.s_start x < Stream.s_end x /\
    overhead < Stream.s_end x - Stream.s_start x in
  (CheckCpuMigration = false -> Stream.migrated x = false) /\
  (valid <-> Bench.rl_r st' = Bench.rl_r st + 1) /\
  (valid ->
   Bench.rl_summary_time st' =
     wrap64 (Bench.rl_summary_time st
             + (Stream.s_end x - Stream.s_start x))) /\
  (~ valid ->
   Bench.rl_r st' = Bench.rl_r st /\
   Bench.rl_summary_time st' = Bench.rl_summary_time st) /\
  snd (Bench.Run_measure_body CheckCpuMigration BarrierType code overhead
         st m)
  = snd (Stream.sample CheckCpuMigration BarrierType code m).
Proof.
  intros Hr x st' valid. subst st'.
  rewrite Run_measure_body_sample. cbn [fst snd]. fold x.
  pose proof (sample_in_range CheckCpuMigration BarrierType code m) as Hx.
  fold x in Hx.
  rewrite run_step_cases by exact Hx.
  assert (Hv : Stream.retained overhead x = true <-> valid).
  { unfold valid. split.
    - intros H. apply retained_duration in H. exact H.
    - intros (Hg & Hm & Ho). unfold Stream.retained, Stream.accepted,
        Stream.monotonic, Stream.duration. rewrite Hg. cbn.
      apply andb_true_intro. split; apply Z.ltb_lt; assumption. }
  split; [|split; [|split; [|split]]].
  - intros ->. subst x. unfold Stream.migrated.
    rewrite (proj1 (sample_cores false BarrierType code m) eq_refl).
    reflexivity.
  - destruct (Stream.retained overhead x) eqn:R; cbn [Bench.rl_r].
    + rewrite wrap64_small by (unfold is_u64; lia). tauto.
    + split; [|lia]. intros H. apply Hv in H. discriminate.
  - intros H. apply Hv in H. rewrite H. reflexivity.
  - intros H. destruct (Stream.retained overhead x) eqn:R.
    + exfalso. apply H, Hv. reflexivity.
    + split; reflexivity.
  - reflexivity.
Qed.

(** C3.  With migration detection enabled, a turn of the measurement loop
    whose two core ids differ leaves the counter and the running sum as
    they were; the loop then takes the next sample with the same count
    still to reach, and it only ever exits with the counter at
    [cycles_number_]. *)
Theorem Run_discards_migrated
    {World : Type} {HW : Hardware World}
    (BarrierType : Barrier) (code : Code World) (overhead : TimePoint)
    (fuel : nat) (N : Z) (st : Bench.RunLoop) (m : Machine World)
    (start end_ : TimePoint) (cpu_number0 cpu_number1 : CpuIdT)
    (m1 m2 : Machine World) :
  Clock.StartTimeCpu BarrierType m = (start, cpu_number0, m1) ->
  Clock.EndTimeCpu BarrierType (snd (invoke code m1))
    = (end_, cpu_number1, m2) ->
  cpu_number0 <> cpu_number1 ->
  Bench.Run_measure_body true BarrierType code overhead st m =
    (Bench.mkRunLoop (Bench.rl_r st) (Bench.rl_summary_time st) start end_,
     m2) /\
  (Bench.rl_r st < N ->
   Bench.Run_measure true BarrierType (S fuel) N code overhead st m =
     Bench.Run_measure true BarrierType fuel N code overhead
       (Bench.mkRunLoop (Bench.rl_r st) (Bench.rl_summary_time st)
          start end_) m2) /\
  (forall st' m',
     0 <= Bench.rl_r st <= N -> N < 2 ^ 64 ->
     Bench.Run_measure true BarrierType fuel N code overhead st m
       = Done (st', m') ->
     Bench.rl_r st' = N).
Proof.
  intros Hs He Hne.
  assert (Hbody :
    Bench.Run_measure_body true BarrierType code overhead st m =
      (Bench.mkRunLoop (Bench.rl_r st) (Bench.rl_summary_time st) start end_,
       m2)).
  { unfold Bench.Run_measure_body, bind. rewrite Hs.
    unfold invoke in *. cbn [snd] in He. rewrite He.
    apply Z.eqb_neq in Hne. rewrite Hne. reflexivity. }
  split; [exact Hbody|split].
  - intros Hlt. cbn [Bench.Run_measure].
    apply Z.ltb_lt in Hlt. rewrite Hlt, Hbody. reflexivity.
  - intros st' m' Hr HN H. eapply Run_measure_exit; eassumption.
Qed.

(** [Run] is its measurement phase, started on the machine the
    prologue leaves, with any contents of [start] and [end]. *)
Lemma Run_from_measure
    {World : Type} {HW : Hardware World}
    (CheckCpuMigration : bool) (BarrierType : Barrier) (fuel : nat)
    (b : Bench.TSCBenchmarking) (code : Code World)
    (settings : Bench.Settings) (m : Machine World)
    (locals : TimePoint * TimePoint) (start end_ : TimePoint) :
  Bench.Run_from CheckCpuMigration BarrierType locals fuel b code settings m =
    match
      Bench.Run_measure CheckCpuMigration BarrierType fuel
        (Bench.cycles_number_ settings) code (Bench.tsc_overhead_ b)
        (Bench.mkRunLoop 0 0 start end_)
        (Reading.after_warmup CheckCpuMigration BarrierType code settings m)
    with
    | Done (st, m2) =>
        if Bench.cycles_number_ settings =? 0 then DivisionByZero
        else Done (Bench.mkResult
                     (Bench.rl_summary_time st
                      / Bench.cycles_number_ settings)
                     (Bench.tsc_overhead_ b), m2)
    | DivisionByZero => DivisionByZero
    | OutOfFuel => OutOfFuel
    end.
Proof.
  unfold Bench.Run_from.
  pose proof (Run_prologue_machine CheckCpuMigration BarrierType code locals
                settings m) as Hm.
  destruct (Bench.Run_prologue CheckCpuMigration BarrierType locals code
              settings m) as [locals1 m1].
  cbn [snd] in Hm. subst m1.
  pose proof (Run_measure_locals CheckCpuMigration BarrierType code fuel
                (Bench.cycles_number_ settings) (Bench.tsc_overhead_ b)
                0 0 (fst locals1) (snd locals1) start end_
                (Reading.after_warmup CheckCpuMigration BarrierType code
                   settings m)) as HL.
  destruct (Bench.Run_measure _ _ _ _ _ _ (Bench.mkRunLoop 0 0 (fst locals1) _) _)
    as [[st1 ma]| |];
    destruct (Bench.Run_measure _ _ _ _ _ _ (Bench.mkRunLoop 0 0 start _) _)
    as [[st2 mb]| |]; cbn in HL; try discriminate; try reflexivity.
  injection HL as _ Hsum Hmach. rewrite Hsum, Hmach. reflexivity.
Qed.

(** On the scripted machine one iteration consumes two entries of the
    script, whatever they hold. *)
Lemma tape_sample_machine (CheckCpuMigration : bool) (BarrierType : Barrier)
    (a c : Z * Z) (rest : list (Z * Z)) (edx : Z) (l : list Event) :
  snd (Stream.sample CheckCpuMigration BarrierType Tape.nop
         (mkMachine (Tape.mkWorld (a :: c :: rest) edx) l)) =
    mkMachine (Tape.mkWorld rest edx)
      (Reading.sample_trace CheckCpuMigration BarrierType ++ l).
Proof.
  destruct a as [t1 x1], c as [t2 x2].
  destruct CheckCpuMigration, BarrierType; reflexivity.
Qed.

Lemma tape_advance (CheckCpuMigration : bool) (BarrierType : Barrier)
    (n : nat) :
  forall (pre rest : list (Z * Z)) (edx : Z) (l : list Event),
    length pre = (2 * n)%nat ->
    Stream.advance CheckCpuMigration BarrierType Tape.nop n
      (mkMachine (Tape.mkWorld (pre ++ rest) edx) l) =
    mkMachine (Tape.mkWorld rest edx)
      (Nat.iter n
         (fun l => Reading.sample_trace CheckCpuMigration BarrierType ++ l) l).
Proof.
  induction n as [|n IH]; intros pre rest edx l H.
  - destruct pre; [reflexivity|discriminate].
  - destruct pre as [|a [|c pre]]; try (cbn in H; lia).
    cbn [Stream.advance app]. rewrite tape_sample_machine.
    rewrite IH by (cbn in H; lia).
    rewrite Nat.iter_succ_r. reflexivity.
Qed.

Lemma tape_after_warmup (CheckCpuMigration : bool) (BarrierType : Barrier)
    (settings : Bench.Settings) (pre rest : list (Z * Z)) :
  length pre
  = (2 * Z.to_nat (Bench.cache_warmup_cycles_number_ settings))%nat ->
  Reading.after_warmup CheckCpuMigration BarrierType Tape.nop settings
    (Tape.boot (pre ++ rest)) =
  mkMachine (Tape.mkWorld rest Tape.edx_all)
    (Nat.iter (Z.to_nat (Bench.cache_warmup_cycles_number_ settings))
       (fun l => Reading.sample_trace CheckCpuMigration BarrierType ++ l) []).
Proof.
  intros H. unfold Reading.after_warmup.
  replace (snd (Details.PinThread (Bench.cpu_ settings)
                  (Tape.boot (pre ++ rest))))
    with (Tape.boot (pre ++ rest))
    by (unfold Details.PinThread; destruct (Bench.cpu_ settings <? 0);
        reflexivity).
  apply tape_advance. exact H.
Qed.

(** C9.  The warm-up phase invokes the operation exactly
    [cache_warmup_cycles_number_] times, and the outcome of [Run] is the
    outcome of the measurement phase started with an empty sum and count
    on the machine the warm-up leaves behind, whatever the local
    variables [start] and [end] hold at that point.  On the scripted
    machine, replacing the values read during warm-up by any others
    leaves the outcome of [Run] unchanged. *)
Theorem Run_warmup_frame
    {World : Type} {HW : Hardware World}
    (CheckCpuMigration : bool) (BarrierType : Barrier) (fuel : nat)
    (b : Bench.TSCBenchmarking) (code : Code World)
    (settings : Bench.Settings) (m : Machine World)
    (locals : TimePoint * TimePoint) :
  let n := Z.to_nat (Bench.cache_warmup_cycles_number_ settings) in
  let m1 := snd (Bench.Run_prologue CheckCpuMigration BarrierType locals code
                   settings m) in
  (0 <= Bench.cache_warmup_cycles_number_ settings ->
   Z.of_nat n = Bench.cache_warmup_cycles_number_ settings) /\
  count_event EvCode (log m1) = (n + count_event EvCode (log m))%nat /\
  m1 = Stream.advance CheckCpuMigration BarrierType code n
         (snd (Details.PinThread (Bench.cpu_ settings) m)) /\
  (forall start end_ : TimePoint,
     Bench.Run_from CheckCpuMigration BarrierType locals fuel b code
       settings m =
     match
       Bench.Run_measure CheckCpuMigration BarrierType fuel
         (Bench.cycles_number_ settings) code (Bench.tsc_overhead_ b)
         (Bench.mkRunLoop 0 0 start end_) m1
     with
     | Done (st, m2) =>
         if Bench.cycles_number_ settings =? 0 then DivisionByZero
         else Done (Bench.mkResult
                      (Bench.rl_summary_time st
                       / Bench.cycles_number_ settings)
                      (Bench.tsc_overhead_ b), m2)
     | DivisionByZero => DivisionByZero
     | OutOfFuel => OutOfFuel
     end) /\
  (forall warmup1 warmup2 rest : list (Z * Z),
     length warmup1 = (2 * n)%nat -> length warmup2 = (2 * n)%nat ->
     Bench.Run CheckCpuMigration BarrierType fuel b Tape.nop settings
       (Tape.boot (warmup1 ++ rest)) =
     Bench.Run CheckCpuMigration BarrierType fuel b Tape.nop settings
       (Tape.boot (warmup2 ++ rest))).
Proof.
  intros n m1. subst m1. rewrite Run_prologue_machine.
  split; [intros H; subst n; apply Z2Nat.id; exact H|].
  split; [unfold Reading.after_warmup;
          rewrite advance_code_count, PinThread_log; reflexivity|].
  split; [reflexivity|].
  split; [intros start end_; apply Run_from_measure|].
  intros warmup1 warmup2 rest H1 H2. unfold Bench.Run.
  rewrite !(Run_from_measure _ _ _ _ _ _ _ _ 0 0).
  rewrite !tape_after_warmup by assumption. reflexivity.
Qed.

(** ** MeasureTime *)

Lemma StartTime_range {World : Type} {HW : Hardware World}
    (BarrierType : Barrier) (m : Machine World) :
  is_u64 (fst (Clock.StartTime BarrierType m)).
Proof.
  destruct BarrierType; unfold_clock; read_hw; apply CombineRegisters_range.
Qed.

Lemma EndTime_range {World : Type} {HW : Hardware World}
    (BarrierType : Barrier) (m : Machine World) :
  is_u64 (fst (Clock.EndTime BarrierType m)).
Proof.
  destruct BarrierType; unfold_clock; read_hw; apply CombineRegisters_range.
Qed.

(** C7.  [MeasureTime] takes one start reading, invokes the operation
    once, takes one end reading and returns the 64-bit difference
    [end - start] as it is: the events it adds to the log are those of
    one start reading, one invocation and one end reading in that order,
    and the value returned depends on nothing but the two readings. *)
Theorem MeasureTime_once
    {World : Type} {HW : Hardware World}
    (BarrierType : Barrier) (code : Code World) (m : Machine World) :
  let start := fst (Clock.StartTime BarrierType m) in
  let m1 := snd (Clock.StartTime BarrierType m) in
  let m2 := snd (invoke code m1) in
  let end_ := fst (Clock.EndTime BarrierType m2) in
  let m3 := snd (Clock.EndTime BarrierType m2) in
  Bench.MeasureTime BarrierType code m = (wrap64 (end_ - start), m3) /\
  (start <= end_ -> wrap64 (end_ - start) = end_ - start) /\
  world m2 = code (world m1) /\
  log m3 =
    Reading.end_trace BarrierType ++ EvCode
      :: Reading.start_trace BarrierType ++ log m /\
  length (filter Reading.is_read (Reading.start_trace BarrierType)) = 1%nat /\
  length (filter Reading.is_read (Reading.end_trace BarrierType)) = 1%nat /\
  count_event EvCode (Reading.start_trace BarrierType) = 0%nat /\
  count_event EvCode (Reading.end_trace BarrierType) = 0%nat.
Proof.
  intros start m1 m2 end_ m3.
  split; [|split; [|split; [|split]]].
  - subst start m1 m2 end_ m3. unfold Bench.MeasureTime.
    destruct BarrierType; unfold_clock; read_hw; reflexivity.
  - intros Hle.
    pose proof (StartTime_range BarrierType m) as Hs.
    pose proof (EndTime_range BarrierType m2) as He.
    fold start in Hs. fold end_ in He.
    apply wrap64_small. unfold is_u64 in *. lia.
  - reflexivity.
  - subst start m1 m2 end_ m3.
    destruct BarrierType; unfold_clock; read_hw; reflexivity.
  - destruct BarrierType; repeat split; reflexivity.
Qed.

(** ** Calibration *)

Lemma min_duration_nonneg (l : list Stream.Sample) :
  Forall (fun x => Stream.accepted x = true) l ->
  0 <= Stream.min_duration l.
Proof.
  induction 1 as [|x l Hx Hl IH].
  - cbv. discriminate.
  - change (Stream.min_duration (x :: l))
      with (Z.min (Stream.duration x) (Stream.min_duration l)).
    unfold Stream.accepted, Stream.monotonic in Hx.
    apply andb_prop in Hx as [_ Hx]. apply Z.ltb_lt in Hx.
    unfold Stream.duration. lia.
Qed.

(** C4 (as amended).  [MeasureMinLatency] completes exactly when the
    machine yields [N] accepted samples, those with [end > start] and,
    under migration detection, equal core ids; it returns the minimum of
    their durations (not a mean).  [MeasureOverhead] runs it on the
    empty operation, then on the system-clock call, and reports the
    first floor together with the 64-bit difference between the second
    and the first; [Initialize] stores that pair, obtained with
    [N = 100]. *)
Theorem calibration_minimum
    {World : Type} {HW : Hardware World}
    (CheckCpuMigration : bool) (BarrierType : Barrier) (fuel : nat)
    (N : Z) (code : Code World) (m : Machine World) :
  0 <= N < 2 ^ 64 ->
  let counted :=
    Reading.kept Stream.accepted (Z.to_nat N)
      (Stream.observations CheckCpuMigration BarrierType code fuel m) in
  (length counted = Z.to_nat N ->
   exists m',
     Bench.MeasureMinLatency CheckCpuMigration BarrierType fuel N code m =
       Done (Stream.min_duration counted, m')) /\
  (forall v m',
     Bench.MeasureMinLatency CheckCpuMigration BarrierType fuel N code m =
       Done (v, m') ->
     length counted = Z.to_nat N /\ v = Stream.min_duration counted /\
     is_u64 v) /\
  (forall min_tsc_overhead min_clock_overhead m1 m2,
     Bench.MeasureMinLatency CheckCpuMigration BarrierType fuel N
       Bench.kEmptyCode m = Done (min_tsc_overhead, m1) ->
     Bench.MeasureMinLatency CheckCpuMigration BarrierType fuel N
       Bench.kGetTime m1 = Done (min_clock_overhead, m2) ->
     Bench.MeasureOverhead CheckCpuMigration BarrierType fuel N m =
       Done (min_tsc_overhead,
             wrap64 (min_clock_overhead - min_tsc_overhead), m2) /\
     (min_tsc_overhead <= min_clock_overhead ->
      wrap64 (min_clock_overhead - min_tsc_overhead) =
        min_clock_overhead - min_tsc_overhead)) /\
  (forall b : Bench.TSCBenchmarking,
     Bench.Initialize CheckCpuMigration BarrierType fuel b m =
       outcome_map
         (fun r => (Bench.mkBench (fst (fst r)) (snd (fst r)), snd r))
         (Bench.MeasureOverhead CheckCpuMigration BarrierType fuel 100
            (mkMachine (hw_realtime_setup (world m)) (log m)))).
Proof.
  intros HN counted.
  assert (Hspec : forall c mm v m',
            Bench.MeasureMinLatency CheckCpuMigration BarrierType fuel N c mm
              = Done (v, m') ->
            length (Reading.kept Stream.accepted (Z.to_nat N)
                      (Stream.observations CheckCpuMigration BarrierType c
                         fuel mm)) = Z.to_nat N /\
            v = Stream.min_duration
                  (Reading.kept Stream.accepted (Z.to_nat N)
                     (Stream.observations CheckCpuMigration BarrierType c
                        fuel mm)) /\
            is_u64 v).
  { intros c mm v m' H. rewrite MeasureMinLatency_spec in H by exact HN.
    destruct (Reading.needed _ _ _) as [k|] eqn:E; [|discriminate].
    injection H as <- _. split; [|split].
    - apply kept_length. eauto.
    - reflexivity.
    - split.
      + apply min_duration_nonneg, kept_Forall.
      + pose proof (min_duration_le_max
                      (Reading.kept Stream.accepted (Z.to_nat N)
                         (Stream.observations CheckCpuMigration BarrierType c
                            fuel mm))) as Hle.
        unfold TimePoint_max in Hle. lia. }
  split; [|split; [|split]].
  - intros Hlen. apply kept_length in Hlen as [k Hk].
    rewrite MeasureMinLatency_spec by exact HN.
    fold counted. rewrite Hk. eauto.
  - intros v m' H. apply (Hspec code m v m' H).
  - intros a c m1 m2 H1 H2. unfold Bench.MeasureOverhead.
    rewrite H1, H2. split; [reflexivity|]. intros Hle.
    apply Hspec in H1 as (_ & _ & Ha). apply Hspec in H2 as (_ & _ & Hc).
    apply wrap64_small. unfold is_u64 in *. lia.
  - intros b. unfold Bench.Initialize, Bench.kDefaultCyclesNumber.
    destruct (Bench.MeasureOverhead _ _ _ _ _) as [[[a c] m']| |];
      reflexivity.
Qed.

(** ** The stabilized calibration loop *)

Section StabFacts.
Import Stream Reading.

Lemma first_stop_eq (N thr : Z) (taken rest : list Z) :
  first_stop N thr taken rest =
    if stops N thr taken then Some taken
    else match rest with
         | [] => None
         | d :: rest' => first_stop N thr (taken ++ [d]) rest'
         end.
Proof. destruct rest; reflexivity. Qed.

Lemma track_snoc (taken : list Z) (d : Z) :
  fold_left track (taken ++ [d]) (TimePoint_max, O) =
    track (fold_left track taken (TimePoint_max, O)) d.
Proof. rewrite fold_left_app. reflexivity. Qed.

Lemma stab_step_accepted (N thr : Z) (taken : list Z) (x : Sample) :
  in_range x -> accepted x = true ->
  N < 2 ^ 64 -> thr < 2 ^ 64 ->
  stops N thr taken = false ->
  stab_step (state_of taken) x = state_of (taken ++ [duration x]).
Proof.
  intros Hr Ha HN Ht Hs. unfold stab_step. rewrite Ha.
  pose proof Ha as Hm. unfold accepted in Hm.
  apply andb_prop in Hm as [_ Hm].
  destruct (accepted_duration x Hr Hm) as [-> _].
  unfold stops in Hs. apply negb_false_iff, andb_prop in Hs as [Hs1 Hs2].
  apply Z.ltb_lt in Hs1, Hs2.
  unfold state_of, lowest, standing. rewrite track_snoc, length_app.
  cbn [length Bench.sl_min_latency].
  unfold standing in Hs2.
  destruct (fold_left track taken (TimePoint_max, O)) as [mn n].
  cbn [fst snd track] in *.
  destruct (duration x <? mn); cbn [fst snd Bench.sl_i
    Bench.sl_min_latency Bench.sl_min_latency_cycles_number].
  - rewrite !wrap64_small by (unfold is_u64; lia).
    f_equal; lia.
  - rewrite !wrap64_small by (unfold is_u64; lia).
    f_equal; lia.
Qed.

Lemma stab_step_rejected (st : Bench.StabLoop) (x : Sample) :
  accepted x = false -> stab_step st x = st.
Proof. intros Ha. unfold stab_step. rewrite Ha. reflexivity. Qed.

Lemma consume_stab (N thr : Z) :
  N < 2 ^ 64 -> thr < 2 ^ 64 ->
  forall (l : list Sample) (taken : list Z),
    Forall in_range l ->
    match first_stop N thr taken (map duration (filter accepted l)) with
    | Some taken' =>
        exists k,
          consume _
            (fun st => (Bench.sl_i st <? N)
                       && (Bench.sl_min_latency_cycles_number st <? thr))
            stab_step l (state_of taken) = Some (state_of taken', k)
    | None =>
        consume _
          (fun st => (Bench.sl_i st <? N)
                     && (Bench.sl_min_latency_cycles_number st <? thr))
          stab_step l (state_of taken) = None
    end.
Proof.
  intros HN Ht. induction l as [|x l IH]; intros taken Hr.
  - cbn [filter map consume]. rewrite first_stop_eq.
    unfold stops at 1. cbn [state_of Bench.sl_i
      Bench.sl_min_latency_cycles_number].
    destruct ((Z.of_nat (length taken) <? N)
              && (Z.of_nat (standing taken) <? thr)); cbn [negb]; eauto.
  - inversion Hr as [|? ? Hx Hl]; subst.
    rewrite first_stop_eq. cbn [consume].
    destruct (stops N thr taken) eqn:Hs.
    + unfold stops in Hs. cbn [state_of Bench.sl_i
        Bench.sl_min_latency_cycles_number].
      apply negb_true_iff in Hs. rewrite Hs. eauto.
    + pose proof Hs as Hs'. unfold stops in Hs'.
      apply negb_false_iff in Hs'.
      cbn [state_of Bench.sl_i Bench.sl_min_latency_cycles_number].
      rewrite Hs'. fold (state_of taken).
      cbn [filter]. destruct (accepted x) eqn:Ha.
      * cbn [map].
        rewrite (stab_step_accepted N thr) by assumption.
        specialize (IH (taken ++ [duration x]) Hl).
        destruct (first_stop N thr (taken ++ [duration x])
                    (map duration (filter accepted l))) as [t|].
        -- destruct IH as [k ->]. eauto.
        -- rewrite IH. reflexivity.
      * rewrite stab_step_rejected by assumption.
        specialize (IH taken Hl).
        rewrite first_stop_eq, Hs in IH.
        destruct (map duration (filter accepted l)) as [|d rest].
        -- rewrite IH. reflexivity.
        -- destruct (first_stop N thr (taken ++ [d]) rest) as [t|].
           ++ destruct IH as [k ->]. eauto.
           ++ rewrite IH. reflexivity.
Qed.

(** [first_stop] returns the shortest extension at which the loop
    condition fails. *)
Lemma first_stop_sound (N thr : Z) :
  forall (rest taken t : list Z),
    first_stop N thr taken rest = Some t ->
    exists ext rest',
      t = taken ++ ext /\ rest = ext ++ rest' /\
      stops N thr t = true /\
      forall j, (j < length ext)%nat ->
                stops N thr (taken ++ firstn j ext) = false.
Proof.
  induction rest as [|d rest IH]; intros taken t H;
    rewrite first_stop_eq in H;
    destruct (stops N thr taken) eqn:Hs.
  - injection H as <-. exists [], []. rewrite app_nil_r.
    repeat split; auto. cbn. intros j Hj. lia.
  - discriminate.
  - injection H as <-. exists [], (d :: rest). rewrite app_nil_r.
    repeat split; auto. cbn. intros j Hj. lia.
  - apply IH in H as (ext & rest' & -> & -> & Hst & Hmin).
    exists (d :: ext), rest'. rewrite <- app_assoc in Hst |- *.
    cbn [app] in Hst |- *.
    split; [reflexivity|split; [reflexivity|split; [exact Hst|]]].
    intros [|j] Hj.
    + cbn. rewrite app_nil_r. exact Hs.
    + cbn [firstn]. cbn [length] in Hj.
      specialize (Hmin j ltac:(lia)).
      rewrite <- app_assoc in Hmin. exact Hmin.
Qed.

Lemma first_stop_none (N thr : Z) :
  forall (rest taken : list Z),
    first_stop N thr taken rest = None ->
    forall j, stops N thr (taken ++ firstn j rest) = false.
Proof.
  induction rest as [|d rest IH]; intros taken H j;
    rewrite first_stop_eq in H;
    destruct (stops N thr taken) eqn:Hs; try discriminate.
  - rewrite firstn_nil, app_nil_r. exact Hs.
  - destruct j as [|j].
    + cbn. rewrite app_nil_r. exact Hs.
    + cbn [firstn]. specialize (IH _ H j).
      rewrite <- app_assoc in IH. exact IH.
Qed.

Lemma lowest_min (ds : list Z) :
  lowest ds = fold_left Z.min ds TimePoint_max.
Proof.
  unfold lowest. generalize TimePoint_max as a, O as n.
  induction ds as [|d ds IH]; intros a n; [reflexivity|].
  cbn [fold_left track]. destruct (Z.ltb_spec d a).
  - rewrite IH. f_equal. lia.
  - rewrite IH. f_equal. lia.
Qed.

Lemma track_vs_failed :
  forall (ds : list Z) (a : Z) (n n' : nat),
    let r := fold_left track ds (a, n) in
    let r' := fold_left track_failed ds (a, n') in
    fst r = fst r' /\
    ((fst r < a /\ snd r = S (snd r')) \/
     (fst r = a /\ snd r = (n + length ds)%nat
      /\ snd r' = (n' + length ds)%nat)).
Proof.
  induction ds as [|d ds IH]; intros a n n'.
  - cbn. split; [reflexivity|]. right. repeat split; lia.
  - cbn [fold_left track track_failed length].
    destruct (Z.ltb_spec d a) as [Hlt|Hge].
    + specialize (IH d 1%nat O). cbv zeta in IH.
      destruct IH as [E [[H1 H2]|(H1 & H2 & H3)]]; (split; [exact E|]);
        left; split; lia.
    + specialize (IH a (S n) (S n')). cbv zeta in IH.
      destruct IH as [E [[H1 H2]|(H1 & H2 & H3)]]; (split; [exact E|]).
      * left. split; lia.
      * right. repeat split; lia.
Qed.

(** Once some duration has lowered the minimum, the counter is one
    more than the number of iterations that failed to beat it. *)
Lemma standing_failed_streak (ds : list Z) :
  standing ds =
    (failed_streak ds
     + if (lowest ds <? TimePoint_max)%Z then 1 else 0)%nat.
Proof.
  unfold standing, failed_streak, lowest.
  pose proof (track_vs_failed ds TimePoint_max O O) as H. cbv zeta in H.
  unfold TimePoint in *.
  destruct H as [E [[H1 H2]|(H1 & H2 & H3)]].
  - apply Z.ltb_lt in H1. rewrite H1. lia.
  - rewrite H1, Z.ltb_irrefl. lia.
Qed.

End StabFacts.

Lemma stops_true (N thr : Z) (taken : list Z) :
  Reading.stops N thr taken = true <->
  N <= Z.of_nat (length taken) \/ thr <= Z.of_nat (Reading.standing taken).
Proof.
  unfold Reading.stops. rewrite negb_true_iff, andb_false_iff.
  rewrite !Z.ltb_ge. reflexivity.
Qed.

Lemma stops_false (N thr : Z) (taken : list Z) :
  Reading.stops N thr taken = false <->
  Z.of_nat (length taken) < N /\ Z.of_nat (Reading.standing taken) < thr.
Proof.
  unfold Reading.stops. rewrite negb_false_iff, andb_true_iff.
  rewrite !Z.ltb_lt. reflexivity.
Qed.

(** C5 (as amended).  The stabilized loop keeps [min_latency_cycles_number]
    equal to the number of accepted iterations since, and including, the
    one that last lowered the minimum: one more than the number of
    consecutive iterations that failed to beat it.  It takes accepted
    samples up to the first point where that counter has reached the
    threshold or [N] samples have been taken, not before, and returns
    the minimum of the durations taken.  The default threshold is 10. *)
Theorem stabilized_stop
    {World : Type} {HW : Hardware World}
    (CheckCpuMigration : bool) (BarrierType : Barrier) (fuel : nat)
    (N thr : Z) (code : Code World) (m : Machine World) :
  0 <= N < 2 ^ 64 -> 0 <= thr < 2 ^ 64 ->
  let ds :=
    map Stream.duration
      (filter Stream.accepted
         (Stream.observations CheckCpuMigration BarrierType code fuel m)) in
  match Reading.first_stop N thr [] ds with
  | Some taken =>
      (exists k,
         Bench.MeasureStabilizedMinLatency CheckCpuMigration BarrierType
           fuel N thr code m =
           Done (Reading.lowest taken,
                 Stream.advance CheckCpuMigration BarrierType code k m)) /\
      (exists rest, ds = taken ++ rest) /\
      (N <= Z.of_nat (length taken) \/
       thr <= Z.of_nat (Reading.standing taken)) /\
      (forall j, (j < length taken)%nat ->
                 Z.of_nat j < N /\
                 Z.of_nat (Reading.standing (firstn j taken)) < thr)
  | None =>
      Bench.MeasureStabilizedMinLatency CheckCpuMigration BarrierType
        fuel N thr code m = OutOfFuel /\
      (forall j, (j <= length ds)%nat ->
                 Z.of_nat j < N /\
                 Z.of_nat (Reading.standing (firstn j ds)) < thr)
  end /\
  (forall taken : list Z,
     Reading.standing taken =
       (Reading.failed_streak taken
        + if (Reading.lowest taken <? TimePoint_max)%Z then 1 else 0)%nat) /\
  (forall taken : list Z,
     Reading.lowest taken = fold_left Z.min taken TimePoint_max) /\
  Bench.kDefaultStabilizedThreshold = 10.
Proof.
  intros HN Ht ds.
  split; [|split; [exact standing_failed_streak|split;
                   [exact lowest_min|reflexivity]]].
  pose proof (consume_stab N thr (proj2 HN) (proj2 Ht)
                (Stream.observations CheckCpuMigration BarrierType code
                   fuel m) []
                (observations_in_range CheckCpuMigration BarrierType code
                   fuel m)) as HC.
  fold ds in HC.
  unfold Bench.MeasureStabilizedMinLatency.
  rewrite MeasureStabilizedMinLatency_loop_drive, drive_consume.
  change (Bench.mkStabLoop 0 TimePoint_max 0) with (Reading.state_of []).
  destruct (Reading.first_stop N thr [] ds) as [taken|] eqn:E.
  - destruct HC as [k ->]. cbn [outcome_map fst snd].
    split; [exists k; reflexivity|].
    apply first_stop_sound in E as (ext & rest & -> & Hds & Hst & Hmin).
    cbn [app] in *. split; [eauto|]. split; [apply stops_true, Hst|].
    intros j Hj. specialize (Hmin j Hj). apply stops_false in Hmin.
    rewrite length_firstn in Hmin. lia.
  - rewrite HC. split; [reflexivity|].
    intros j Hj. pose proof (first_stop_none N thr ds [] E j) as Hs.
    cbn [app] in Hs. apply stops_false in Hs.
    rewrite length_firstn in Hs. lia.
Qed.

(** ** Construction *)

Lemma requires_rdtscp_spec (CheckCpuMigration : bool) (BarrierType : Barrier) :
  Reading.requires_rdtscp CheckCpuMigration BarrierType =
    CheckCpuMigration || Barrier_eqb BarrierType kRdtscp.
Proof. destruct CheckCpuMigration, BarrierType; reflexivity. Qed.

(** On every machine, an iteration of a configuration for which
    [requires_rdtscp] holds executes [rdtscp]. *)
Lemma requires_rdtscp_executes {World : Type} {HW : Hardware World}
    (CheckCpuMigration : bool) (BarrierType : Barrier) (code : Code World)
    (m : Machine World) :
  Reading.requires_rdtscp CheckCpuMigration BarrierType = true ->
  In EvRdtscp
    (log (snd (Stream.sample CheckCpuMigration BarrierType code m))).
Proof.
  intros H. rewrite sample_log. apply in_or_app. left.
  unfold Reading.requires_rdtscp in H. apply existsb_exists in H.
  destruct H as (e & He & Heq). destruct e; try discriminate. exact He.
Qed.

(** What the constructor checks. *)
Lemma TSCBenchmarking_new_spec {World : Type} {HW : Hardware World}
    (BarrierType : Barrier) (w : World) :
  Bench.TSCBenchmarking_new BarrierType w =
    if Details.IsTscEnabled (Details.CpuInfo_new w)
       && (negb (Barrier_eqb BarrierType kRdtscp)
           || Details.IsRdtscpEnabled (Details.CpuInfo_new w))
    then Some (Bench.mkBench 0 0)
    else None.
Proof.
  unfold Bench.TSCBenchmarking_new.
  destruct (Details.IsTscEnabled _); [|reflexivity]. cbn [negb andb].
  destruct (negb (Barrier_eqb BarrierType kRdtscp) || _); reflexivity.
Qed.

(** C6, at the failing input.  On a processor that reports the cycle
    counter but not [rdtscp], the object for migration detection with the
    [kOneCpuId] barrier is constructed, although every iteration of that
    configuration executes [rdtscp]; the constructor takes no account of
    the migration flag. *)
Theorem construction_misses_migration_check :
  let w := Tape.mkWorld [] Tape.edx_tsc_only in
  Details.IsTscEnabled (Details.CpuInfo_new w) = true /\
  Details.IsRdtscpEnabled (Details.CpuInfo_new w) = false /\
  Reading.requires_rdtscp true kOneCpuId = true /\
  Bench.TSCBenchmarking_new kOneCpuId w = Some (Bench.mkBench 0 0) /\
  In EvRdtscp (log (snd (Stream.sample true kOneCpuId Tape.nop
                           (mkMachine w [])))) /\
  Bench.TSCBenchmarking_new kRdtscp w = None.
Proof.
  cbv zeta. repeat split; try reflexivity.
  apply requires_rdtscp_executes. reflexivity.
Qed.

(* ================================================================= *)
(** * The embedding on explicit inputs *)

(** The instruction sequences of the five barriers, in program order. *)
Lemma barrier_sequences :
  map (fun b => (rev (Reading.start_trace b), rev (Reading.end_trace b)))
    [kOneCpuId; kLFence; kMFence; kRdtscp; kTwoCpuId] =
  [([EvCpuId; EvRdtsc], [EvCpuId; EvRdtsc]);
   ([EvCpuId; EvRdtsc], [EvLFence; EvRdtsc; EvCpuId]);
   ([EvCpuId; EvRdtsc], [EvCpuId; EvRdtsc; EvMFence]);
   ([EvCpuId; EvRdtsc], [EvRdtscp; EvCpuId]);
   ([EvCpuId; EvRdtsc; EvCpuId], [EvCpuId; EvRdtsc; EvCpuId])].
Proof. reflexivity. Qed.

(** ** C1 *)

(** Two samples of 7 and 5 cycles average to 6. *)
Lemma Run_result_witness :
  1 <= 2 < 2 ^ 64 /\
  exists m',
    Bench.Run false kOneCpuId 2 (Bench.mkBench 0 0) Tape.nop
      (Bench.mkSettings 2 0 0) (Tape.boot [(0, 0); (7, 0); (10, 0); (15, 0)])
    = Done (Bench.mkResult 6 0, m').
Proof.
  split; [lia|].
  pose proof (Run_result false kOneCpuId 2 (Bench.mkBench 0 0) Tape.nop
                (Bench.mkSettings 2 0 0)
                (Tape.boot [(0, 0); (7, 0); (10, 0); (15, 0)])) as H.
  cbv zeta in H. destruct H as [H _]; [cbn; lia|].
  destruct H as [m' H]; [reflexivity|].
  exists m'. exact H.
Defined.

(** Two retained samples of 2^63 cycles each: their sum divided by 2 is
    2^63, but the 64-bit accumulator wraps to 0 and [time_] is 0.  With
    [cycles_number_ = 0] there is no result at all. *)
Lemma Run_result_counterexample :
  let script := [(0, 0); (2 ^ 63, 0); (0, 0); (2 ^ 63, 0)] in
  let b := Bench.mkBench 0 0 in
  let settings := Bench.mkSettings 2 0 0 in
  let retained_samples :=
    filter (Stream.retained (Bench.tsc_overhead_ b))
      (Stream.observations false kOneCpuId Tape.nop 2 (Tape.boot script)) in
  map Stream.duration retained_samples = [2 ^ 63; 2 ^ 63] /\
  Stream.sum_durations retained_samples / Bench.cycles_number_ settings
    = 2 ^ 63 /\
  outcome_map fst
    (Bench.Run false kOneCpuId 2 b Tape.nop settings (Tape.boot script))
    = Done (Bench.mkResult 0 0) /\
  outcome_map fst
    (Bench.Run false kOneCpuId 2 b Tape.nop (Bench.mkSettings 0 0 0)
       (Tape.boot script))
    = DivisionByZero.
Proof. vm_compute. repeat split; reflexivity. Qed.

(** ** C2 *)

Lemma Run_counts_sample_witness :
  0 <= 0 < 2 ^ 64 - 1 /\
  Bench.rl_r
    (fst (Bench.Run_measure_body false kOneCpuId Tape.nop 10
            (Bench.mkRunLoop 0 0 0 0) (Tape.boot [(0, 0); (100, 0)])))
  = 0 + 1.
Proof.
  split; [lia|].
  pose proof (Run_counts_sample false kOneCpuId Tape.nop 10
                (Bench.mkRunLoop 0 0 0 0)
                (Tape.boot [(0, 0); (100, 0)])) as H.
  cbv zeta in H. destruct H as (_ & H & _); [cbn; lia|].
  apply H. repeat split; reflexivity.
Defined.

(** Under migration detection, a sample read as 0 on core 0 and 100 on
    core 1 passes both tests ([end > start], duration above a floor of
    10), yet it
    is neither counted nor added. *)
Lemma Run_counts_sample_counterexample :
  let m := Tape.boot [(0, 0); (100, 1)] in
  let st := Bench.mkRunLoop 0 0 0 0 in
  let x := fst (Stream.sample true kOneCpuId Tape.nop m) in
  let st' := fst (Bench.Run_measure_body true kOneCpuId Tape.nop 10 st m) in
  x = Stream.mkSample 0 100 (Some (0, 1)) /\
  Stream.s_start x < Stream.s_end x /\
  10 < Stream.s_end x - Stream.s_start x /\
  Bench.rl_r st' = 0 /\
  Bench.rl_summary_time st' = 0.
Proof. vm_compute. repeat split; reflexivity. Qed.

(** ** C3 *)

Lemma Run_discards_migrated_witness :
  let m := Tape.boot [(0, 0); (100, 1); (5, 2); (50, 2)] in
  let r1 := Clock.StartTimeCpu kLFence m in
  let r2 := Clock.EndTimeCpu kLFence (snd (invoke Tape.nop (snd r1))) in
  snd (fst r1) <> snd (fst r2) /\
  3 < 4 /\
  Bench.Run_measure_body true kLFence Tape.nop 10
    (Bench.mkRunLoop 3 40 0 0) m =
    (Bench.mkRunLoop 3 40 (fst (fst r1)) (fst (fst r2)), snd r2) /\
  Bench.Run_measure true kLFence 2 4 Tape.nop 10 (Bench.mkRunLoop 3 40 0 0) m =
    Bench.Run_measure true kLFence 1 4 Tape.nop 10
      (Bench.mkRunLoop 3 40 (fst (fst r1)) (fst (fst r2))) (snd r2).
Proof.
  cbv zeta.
  assert (Hne : snd (fst (Clock.StartTimeCpu kLFence
                            (Tape.boot [(0, 0); (100, 1); (5, 2); (50, 2)])))
                <> snd (fst (Clock.EndTimeCpu kLFence
                               (snd (invoke Tape.nop
                                       (snd (Clock.StartTimeCpu kLFence
                                               (Tape.boot
                                                  [(0, 0); (100, 1);
                                                   (5, 2); (50, 2)])))))))).
  { vm_compute. intros E. discriminate E. }
  split; [exact Hne|]. split; [lia|].
  pose proof (Run_discards_migrated kLFence Tape.nop 10 1 4
                (Bench.mkRunLoop 3 40 0 0)
                (Tape.boot [(0, 0); (100, 1); (5, 2); (50, 2)])
                _ _ _ _ _ _ eq_refl eq_refl Hne) as (H1 & H2 & _).
  split; [exact H1|]. apply H2. cbn. lia.
Defined.

(** ** C4 *)

(** Of three samples the second is not monotonic; the minimum of the
    two others is returned.  Floors of 5 and 9 cycles give the pair
    (5, 4). *)
Lemma calibration_minimum_witness :
  0 <= 2 < 2 ^ 64 /\
  (exists m',
     Bench.MeasureMinLatency false kOneCpuId 3 2 Tape.nop
       (Tape.boot [(0, 0); (9, 0); (5, 0); (5, 0); (0, 0); (4, 0)])
     = Done (4, m')) /\
  5 <= 9 /\
  outcome_map fst
    (Bench.MeasureOverhead false kOneCpuId 2 1
       (Tape.boot [(0, 0); (5, 0); (0, 0); (9, 0)]))
  = Done (5, 9 - 5).
Proof.
  split; [lia|]. split; [|split; [lia|]].
  - pose proof (calibration_minimum false kOneCpuId 3 2 Tape.nop
                  (Tape.boot [(0, 0); (9, 0); (5, 0); (5, 0); (0, 0); (4, 0)]))
      as H.
    cbv zeta in H. destruct H as [H _]; [lia|].
    destruct H as [m' H]; [reflexivity|].
    exists m'. exact H.
  - pose proof (calibration_minimum false kOneCpuId 2 1 Tape.nop
                  (Tape.boot [(0, 0); (5, 0); (0, 0); (9, 0)])) as H.
    cbv zeta in H. destruct H as (_ & _ & H & _); [lia|].
    edestruct H as [H1 H2]; [vm_compute; reflexivity|vm_compute; reflexivity|].
    rewrite H1. cbn [outcome_map fst]. rewrite H2 by lia. reflexivity.
Defined.

(** Under migration detection the first sample has [end > start] and a
    duration of 5, the smallest observed, but its readings come from two
    cores: the value retained is 10.  And with a system-clock floor of 3
    below a counter floor of 5 the reported clock overhead is 2^64 - 2,
    not the difference -2. *)
Lemma calibration_minimum_counterexample :
  let m := Tape.boot [(0, 0); (5, 1); (0, 0); (10, 0)] in
  Stream.observations true kOneCpuId Tape.nop 2 m =
    [Stream.mkSample 0 5 (Some (0, 1)); Stream.mkSample 0 10 (Some (0, 0))] /\
  outcome_map fst (Bench.MeasureMinLatency true kOneCpuId 2 1 Tape.nop m)
    = Done 10 /\
  outcome_map fst
    (Bench.MeasureOverhead false kOneCpuId 2 1
       (Tape.boot [(0, 0); (5, 0); (0, 0); (3, 0)]))
    = Done (5, 2 ^ 64 - 2).
Proof. vm_compute. repeat split; reflexivity. Qed.

(** ** C5 *)

Lemma stabilized_stop_witness :
  0 <= 5 < 2 ^ 64 /\ 0 <= 2 < 2 ^ 64 /\
  exists k,
    Bench.MeasureStabilizedMinLatency false kOneCpuId 5 5 2 Tape.nop
      (Tape.boot [(0, 0); (10, 0); (0, 0); (12, 0); (0, 0); (3, 0)])
    = Done (10,
            Stream.advance false kOneCpuId Tape.nop k
              (Tape.boot [(0, 0); (10, 0); (0, 0); (12, 0); (0, 0); (3, 0)])).
Proof.
  split; [lia|]. split; [lia|].
  pose proof (stabilized_stop false kOneCpuId 5 5 2 Tape.nop
                (Tape.boot [(0, 0); (10, 0); (0, 0); (12, 0); (0, 0); (3, 0)]))
    as H.
  cbv zeta in H. destruct H as [H _]; [lia|lia|].
  change (Reading.first_stop 5 2 []
            (map Stream.duration
               (filter Stream.accepted
                  (Stream.observations false kOneCpuId Tape.nop 5
                     (Tape.boot
                        [(0, 0); (10, 0); (0, 0); (12, 0); (0, 0); (3, 0)])))))
    with (Some [10; 12]) in H.
  destruct H as [[k H] _]. exists k. exact H.
Defined.

(** Threshold 2, durations 10, 12, 3, ...: after 10 and 12 a single
    iteration has failed to beat the minimum, fewer than the threshold
    and with [N = 5] not reached, yet the loop has stopped: it returns
    10 and leaves the sample of duration 3 unread. *)
Lemma stabilized_stop_counterexample :
  let m := Tape.boot [(0, 0); (10, 0); (0, 0); (12, 0); (0, 0); (3, 0);
                      (0, 0); (4, 0); (0, 0); (5, 0)] in
  Bench.MeasureStabilizedMinLatency false kOneCpuId 5 5 2 Tape.nop m =
    Done (10, Stream.advance false kOneCpuId Tape.nop 2 m) /\
  Tape.reads (world (Stream.advance false kOneCpuId Tape.nop 2 m)) =
    [(0, 0); (3, 0); (0, 0); (4, 0); (0, 0); (5, 0)] /\
  Reading.failed_streak [10; 12] = 1%nat /\
  Reading.stops_as_specified 5 2 [10; 12] = false /\
  Reading.stops 5 2 [10; 12] = true.
Proof. vm_compute. repeat split; reflexivity. Qed.

(** ** C7 *)

Lemma MeasureTime_once_witness :
  fst (Bench.MeasureTime kLFence Tape.nop (Tape.boot [(3, 0); (10, 0)]))
  = 10 - 3.
Proof.
  pose proof (MeasureTime_once kLFence Tape.nop
                (Tape.boot [(3, 0); (10, 0)])) as H.
  cbv zeta in H. destruct H as (H1 & H2 & _).
  rewrite H1. cbn [fst]. apply H2.
  vm_compute. intros E. discriminate E.
Defined.

(** ** C8 *)

Lemma Run_time_above_overhead_witness :
  Bench.wf_Bench (Bench.mkBench 3 0) /\
  Bench.wf_Settings (Bench.mkSettings 2 0 0) /\
  0 <= 3 /\ 3 < 6.
Proof.
  assert (Hb : Bench.wf_Bench (Bench.mkBench 3 0))
    by (unfold Bench.wf_Bench, is_u64; cbn; lia).
  assert (Hs : Bench.wf_Settings (Bench.mkSettings 2 0 0))
    by (unfold Bench.wf_Settings; cbn; lia).
  split; [exact Hb|]. split; [exact Hs|].
  pose proof (Run_time_above_overhead false kOneCpuId 2 (Bench.mkBench 3 0)
                Tape.nop (Bench.mkSettings 2 0 0)
                (Tape.boot [(0, 0); (7, 0); (10, 0); (15, 0)])
                (Bench.mkResult 6 3)
                (Stream.advance false kOneCpuId Tape.nop 2
                   (Tape.boot [(0, 0); (7, 0); (10, 0); (15, 0)]))
                Hb Hs eq_refl) as [H0 H1].
  split; [exact H0|]. apply H1. reflexivity.
Defined.

(** An object calibrated to a floor of 5 cycles, then two retained
    samples of 2^63 cycles each: the accumulator wraps to 0 and the
    result has [time_ = 0 < 5 = overhead_]. *)
Lemma Run_time_above_overhead_counterexample :
  let script :=
    concat (repeat [(0, 0); (5, 0)] 100)
    ++ concat (repeat [(0, 0); (9, 0)] 100)
    ++ [(0, 0); (2 ^ 63, 0); (0, 0); (2 ^ 63, 0)] in
  exists b m1 res m2,
    Bench.TSCBenchmarking_new kOneCpuId (world (Tape.boot script))
      = Some (Bench.mkBench 0 0) /\
    Bench.Initialize false kOneCpuId 200 (Bench.mkBench 0 0)
      (Tape.boot script) = Done (b, m1) /\
    b = Bench.mkBench 5 4 /\
    Bench.Run false kOneCpuId 2 b Tape.nop (Bench.mkSettings 2 0 0) m1
      = Done (res, m2) /\
    res = Bench.mkResult 0 5 /\
    Bench.time_ res < Bench.overhead_ res.
Proof.
  cbv zeta. do 4 eexists.
  split; [reflexivity|].
  split; [vm_compute; reflexivity|].
  split; [reflexivity|].
  split; [vm_compute; reflexivity|].
  split; reflexivity.
Qed.

(** ** C9 *)

Lemma Run_warmup_frame_witness :
  0 <= 1 /\
  Z.of_nat (Z.to_nat 1) = 1 /\
  Bench.Run true kMFence 1 (Bench.mkBench 2 0) Tape.nop
    (Bench.mkSettings 1 0 1)
    (Tape.boot ([(1, 0); (2, 0)] ++ [(10, 3); (17, 3)])) =
  Bench.Run true kMFence 1 (Bench.mkBench 2 0) Tape.nop
    (Bench.mkSettings 1 0 1)
    (Tape.boot ([(500, 1); (3, 7)] ++ [(10, 3); (17, 3)])).
Proof.
  pose proof (Run_warmup_frame true kMFence 1 (Bench.mkBench 2 0) Tape.nop
                (Bench.mkSettings 1 0 1) (Tape.boot []) (0, 0)) as H.
  cbv zeta in H. destruct H as (H1 & _ & _ & _ & H2).
  split; [lia|]. split; [apply H1; cbn; lia|].
  apply H2; reflexivity.
Defined.

(** ** C10 *)

Lemma Run_division_witness :
  1 <= 1 < 2 ^ 64 /\
  Bench.Run false kOneCpuId 1 (Bench.mkBench 0 0) Tape.nop
    (Bench.mkSettings 1 0 0) (Tape.boot [(0, 0); (7, 0)]) <> DivisionByZero /\
  Bench.Run false kOneCpuId 1 (Bench.mkBench 0 0) Tape.nop
    (Bench.mkSettings 0 0 0) (Tape.boot [(0, 0); (7, 0)]) = DivisionByZero.
Proof.
  split; [lia|]. split.
  - apply (proj1 (Run_division false kOneCpuId 1 (Bench.mkBench 0 0) Tape.nop
                    (Bench.mkSettings 1 0 0) (Tape.boot [(0, 0); (7, 0)]))).
    cbn. lia.
  - apply (proj2 (Run_division false kOneCpuId 1 (Bench.mkBench 0 0) Tape.nop
                    (Bench.mkSettings 0 0 0) (Tape.boot [(0, 0); (7, 0)]))).
    reflexivity.
Defined.

(* ================================================================= *)
(** * Further properties of the code *)

(** ** Further properties of tsc_cpu.h *)

Lemma land_low_bits (a n : Z) : 0 <= n -> Z.land a (2 ^ n - 1) = a mod 2 ^ n.
Proof.
  intros H. replace (2 ^ n - 1) with (Z.ones n)
    by (rewrite Z.ones_equiv; lia).
  apply Z.land_ones. exact H.
Qed.

(** X1.  For 32-bit halves, [CombineRegisters low high] is
    [high * 2^32 + low], a 64-bit value from which both halves are
    recovered: the low 32 bits give [low] and the shift by 32 gives
    [high]. *)
Theorem CombineRegisters_roundtrip (low high : Z) :
  0 <= low < 2 ^ 32 -> 0 <= high < 2 ^ 32 ->
  let v := Details.CombineRegisters low high in
  v = high * 2 ^ 32 + low /\
  is_u64 v /\
  Z.land v (2 ^ 32 - 1) = low /\
  Z.shiftr v 32 = high.
Proof.
  intros Hl Hh v. subst v.
  rewrite CombineRegisters_value by assumption.
  split; [reflexivity|]. split; [unfold is_u64; lia|]. split.
  - rewrite land_low_bits by lia.
    rewrite Z.add_comm, Z.mod_add by lia. apply Z.mod_small. exact Hl.
  - rewrite Z.shiftr_div_pow2 by lia.
    rewrite Z.add_comm, Z.div_add by lia.
    rewrite Z.div_small by exact Hl. reflexivity.
Qed.

Lemma CombineRegisters_roundtrip_witness :
  0 <= 7 < 2 ^ 32 /\ 0 <= 3 < 2 ^ 32 /\
  Details.CombineRegisters 7 3 = 3 * 2 ^ 32 + 7 /\
  Z.shiftr (Details.CombineRegisters 7 3) 32 = 3.
Proof.
  assert (Hl : 0 <= 7 < 2 ^ 32) by lia.
  assert (Hh : 0 <= 3 < 2 ^ 32) by lia.
  pose proof (CombineRegisters_roundtrip 7 3 Hl Hh) as H.
  cbv zeta in H. destruct H as (H1 & _ & _ & H4).
  split; [exact Hl|]. split; [exact Hh|]. split; [exact H1|exact H4].
Defined.

(** The timestamp halves are read whatever the overload; the core id is
    masked to 24 bits. *)
Lemma land_mask_range (a k : Z) :
  0 <= k -> 0 <= Z.land a (2 ^ k - 1) < 2 ^ k.
Proof.
  intros H. rewrite land_low_bits by exact H. apply Z.mod_pos_bound.
  apply Z.pow_pos_nonneg; lia.
Qed.

(** X2.  On every machine and for every barrier, each of the four clock
    methods returns a time stamp in [0, 2^64), and the two overloads that
    report the core return an id in [0, 2^24). *)
Theorem clock_readings_in_range
    {World : Type} {HW : Hardware World}
    (BarrierType : Barrier) (m : Machine World) :
  is_u64 (fst (Clock.StartTime BarrierType m)) /\
  is_u64 (fst (Clock.EndTime BarrierType m)) /\
  is_u64 (fst (fst (Clock.StartTimeCpu BarrierType m))) /\
  is_u64 (fst (fst (Clock.EndTimeCpu BarrierType m))) /\
  0 <= snd (fst (Clock.StartTimeCpu BarrierType m)) < 2 ^ 24 /\
  0 <= snd (fst (Clock.EndTimeCpu BarrierType m)) < 2 ^ 24.
Proof.
  split; [apply StartTime_range|]. split; [apply EndTime_range|].
  repeat split;
    destruct BarrierType; unfold_clock; read_hw;
    try apply CombineRegisters_range;
    try apply (proj1 (land_mask_range _ 24 ltac:(lia)));
    try apply (proj2 (land_mask_range _ 24 ltac:(lia))).
Qed.

(** X3.  The three overloads of [Rdtscp] agree: on the same machine they
    return the same time stamp and leave the same machine; chip and core
    of the two-id overload are below 2^12, and [chip * 2^12 + core] is
    the 24-bit id of the one-id overload. *)
Theorem Rdtscp_chip_core
    {World : Type} {HW : Hardware World} (m : Machine World) :
  let '(time, id, m1) := Details.Rdtscp m in
  let '(time2, chip, core, m2) := Details.Rdtscp2 m in
  Details.Rdtscp0 m = (time, m1) /\
  time2 = time /\ m2 = m1 /\
  0 <= chip < 2 ^ 12 /\ 0 <= core < 2 ^ 12 /\
  chip * 2 ^ 12 + core = id.
Proof.
  unfold Details.Rdtscp, Details.Rdtscp2, Details.Rdtscp0.
  destruct (hw_rdtscp (world m)) as [[[lo hi] aux] w].
  split; [reflexivity|]. split; [reflexivity|]. split; [reflexivity|].
  pose proof (wrap32_range aux) as Ha. set (a := wrap32 aux) in *.
  rewrite Z.shiftr_land.
  change (Z.shiftr 16773120 12) with (2 ^ 12 - 1).
  change 4095 with (2 ^ 12 - 1). change 16777215 with (2 ^ 24 - 1).
  rewrite !land_low_bits by lia.
  rewrite Z.shiftr_div_pow2 by lia.
  split; [apply Z.mod_pos_bound; lia|].
  split; [apply Z.mod_pos_bound; lia|].
  change (2 ^ 24) with (2 ^ 12 * 2 ^ 12).
  rewrite Z.rem_mul_r by lia. lia.
Qed.

(** ** Further properties of tsc_clock.h *)

(** X4.  On every machine each clock method appends a fixed instruction
    sequence that contains exactly one counter read and no invocation.
    A start reading begins with [cpuid] directly followed by the read;
    the overloads that report the core always read with [rdtscp], and
    those that do not use [rdtsc], except [EndTime] of the [kRdtscp]
    barrier. *)
Theorem clock_instruction_discipline
    {World : Type} {HW : Hardware World}
    (BarrierType : Barrier) (m : Machine World) :
  log (snd (Clock.StartTime BarrierType m))
    = Reading.start_trace BarrierType ++ log m /\
  log (snd (Clock.EndTime BarrierType m))
    = Reading.end_trace BarrierType ++ log m /\
  log (snd (Clock.StartTimeCpu BarrierType m))
    = Traces.start_trace_cpu BarrierType ++ log m /\
  log (snd (Clock.EndTimeCpu BarrierType m))
    = Traces.end_trace_cpu BarrierType ++ log m /\
  map Traces.reads
    [Reading.start_trace BarrierType; Reading.end_trace BarrierType;
     Traces.start_trace_cpu BarrierType; Traces.end_trace_cpu BarrierType]
    = [1; 1; 1; 1]%nat /\
  map (count_event EvCode)
    [Reading.start_trace BarrierType; Reading.end_trace BarrierType;
     Traces.start_trace_cpu BarrierType; Traces.end_trace_cpu BarrierType]
    = [0; 0; 0; 0]%nat /\
  firstn 2 (rev (Reading.start_trace BarrierType)) = [EvCpuId; EvRdtsc] /\
  firstn 2 (rev (Traces.start_trace_cpu BarrierType)) = [EvCpuId; EvRdtscp] /\
  count_event EvRdtsc (Traces.end_trace_cpu BarrierType) = 0%nat /\
  count_event EvRdtscp (Reading.end_trace BarrierType)
    = (if Barrier_eqb BarrierType kRdtscp then 1 else 0)%nat.
Proof.
  split; [destruct BarrierType; unfold_clock; read_hw; reflexivity|].
  split; [destruct BarrierType; unfold_clock; read_hw; reflexivity|].
  split; [destruct BarrierType; unfold_clock; read_hw; reflexivity|].
  split; [destruct BarrierType; unfold_clock; read_hw; reflexivity|].
  destruct BarrierType; repeat split; reflexivity.
Qed.

(** ** Further properties of utils/affinity.h *)

(** X5.  [PinThread] refuses a negative core number without calling the
    operating system: it returns [false] and the machine is untouched.
    [Run] then warms up and measures on the machine as it found it. *)
Theorem PinThread_negative
    {World : Type} {HW : Hardware World}
    (CheckCpuMigration : bool) (BarrierType : Barrier)
    (code : Code World) (settings : Bench.Settings) (m : Machine World) :
  Bench.cpu_ settings < 0 ->
  Details.PinThread (Bench.cpu_ settings) m = (false, m) /\
  Reading.after_warmup CheckCpuMigration BarrierType code settings m =
    Stream.advance CheckCpuMigration BarrierType code
      (Z.to_nat (Bench.cache_warmup_cycles_number_ settings)) m /\
  forall (fuel : nat) (b : Bench.TSCBenchmarking) (cpu' : Z),
    cpu' < 0 ->
    Bench.Run CheckCpuMigration BarrierType fuel b code settings m =
    Bench.Run CheckCpuMigration BarrierType fuel b code
      (Bench.mkSettings (Bench.cycles_number_ settings) cpu'
         (Bench.cache_warmup_cycles_number_ settings)) m.
Proof.
  intros Hneg.
  assert (Hpin : forall c, c < 0 -> Details.PinThread c m = (false, m)).
  { intros c Hc. unfold Details.PinThread. apply Z.ltb_lt in Hc.
    rewrite Hc. reflexivity. }
  split; [apply Hpin, Hneg|]. split.
  - unfold Reading.after_warmup. rewrite Hpin by exact Hneg. reflexivity.
  - intros fuel b cpu' Hc. unfold Bench.Run.
    rewrite !(Run_from_measure _ _ _ _ _ _ _ _ 0 0).
    unfold Reading.after_warmup. cbn [Bench.cpu_ Bench.cycles_number_
      Bench.cache_warmup_cycles_number_].
    rewrite !Hpin by assumption. reflexivity.
Qed.

Lemma PinThread_negative_witness :
  -1 < 0 /\ -7 < 0 /\
  Details.PinThread (-1) (Tape.boot [(0, 0); (7, 0)])
    = (false, Tape.boot [(0, 0); (7, 0)]) /\
  Bench.Run false kOneCpuId 1 (Bench.mkBench 0 0) Tape.nop
    (Bench.mkSettings 1 (-1) 0) (Tape.boot [(0, 0); (7, 0)]) =
  Bench.Run false kOneCpuId 1 (Bench.mkBench 0 0) Tape.nop
    (Bench.mkSettings 1 (-7) 0) (Tape.boot [(0, 0); (7, 0)]).
Proof.
  split; [lia|]. split; [lia|].
  pose proof (PinThread_negative false kOneCpuId Tape.nop
                (Bench.mkSettings 1 (-1) 0) (Tape.boot [(0, 0); (7, 0)]))
    as H.
  destruct H as (H1 & _ & H3); [cbn; lia|].
  split; [exact H1|]. apply (H3 1%nat (Bench.mkBench 0 0) (-7)). lia.
Defined.

(** X6.  [GetCpuCoreCount] never reports fewer than one core: a count
    that fits an [int] is returned as it is, and zero or an error value
    of [sysconf] gives 1. *)
Theorem GetCpuCoreCount_positive (sysconf_result : Z) :
  1 <= Affinity.GetCpuCoreCount sysconf_result < 2 ^ 31 /\
  (1 <= sysconf_result < 2 ^ 31 ->
   Affinity.GetCpuCoreCount sysconf_result = sysconf_result) /\
  (- 2 ^ 31 <= sysconf_result <= 0 ->
   Affinity.GetCpuCoreCount sysconf_result = 1).
Proof.
  unfold Affinity.GetCpuCoreCount, Affinity.to_int.
  pose proof (Z.mod_pos_bound (sysconf_result + 2 ^ 31) (2 ^ 32)
                ltac:(lia)) as Hm.
  split; [|split].
  - destruct (Z.ltb_spec 0 ((sysconf_result + 2 ^ 31) mod 2 ^ 32 - 2 ^ 31));
      lia.
  - intros H. rewrite Z.mod_small by lia.
    destruct (Z.ltb_spec 0 (sysconf_result + 2 ^ 31 - 2 ^ 31)); lia.
  - intros H. rewrite Z.mod_small by lia.
    destruct (Z.ltb_spec 0 (sysconf_result + 2 ^ 31 - 2 ^ 31)); lia.
Qed.

Lemma GetCpuCoreCount_positive_witness :
  1 <= 8 < 2 ^ 31 /\ Affinity.GetCpuCoreCount 8 = 8 /\
  - 2 ^ 31 <= -1 <= 0 /\ Affinity.GetCpuCoreCount (-1) = 1.
Proof.
  split; [lia|]. split.
  - apply (proj1 (proj2 (GetCpuCoreCount_positive 8))). lia.
  - split; [lia|].
    apply (proj2 (proj2 (GetCpuCoreCount_positive (-1)))). lia.
Defined.

(** ** Further properties of [CpuInfo] and the constructor *)

Lemma mask_test (reg k : Z) :
  0 <= k ->
  Details.IsFeatureEnabled reg (Z.shiftl 1 k) = Z.testbit reg k.
Proof.
  intros Hk. unfold Details.IsFeatureEnabled.
  rewrite Z.shiftl_1_l.
  destruct (Z.testbit reg k) eqn:T.
  - apply negb_true_iff, Z.eqb_neq. intros E.
    assert (B : Z.testbit (Z.land reg (2 ^ k)) k = true).
    { rewrite Z.land_spec, T, Z.pow2_bits_true by exact Hk. reflexivity. }
    rewrite E, Z.bits_0 in B. discriminate.
  - apply negb_false_iff, Z.eqb_eq. apply Z.bits_inj'. intros i Hi.
    rewrite Z.land_spec, Z.bits_0, Z.pow2_bits_eqb by exact Hk.
    destruct (Z.eqb_spec k i) as [->|]; [rewrite T|];
      rewrite ?andb_false_r; reflexivity.
Qed.

Lemma wrap32_testbit (d k : Z) :
  0 <= k < 32 -> Z.testbit (wrap32 d) k = Z.testbit d k.
Proof. intros H. unfold wrap32. apply Z.mod_pow2_bits_low. lia. Qed.

(** X7.  The three feature queries read bits 4, 8 and 27 of the EDX
    value returned by [cpuid] leaf 1 and nothing else, and the
    constructor yields an object, with both overheads at zero, exactly
    when bit 4 is set and either the barrier is not [kRdtscp] or bit 27
    is set; bit 8 plays no part. *)
Theorem feature_bits
    {World : Type} {HW : Hardware World} (w : World) :
  let edx := snd (hw_cpuid_leaf1 w) in
  let cpu_info := Details.CpuInfo_new w in
  Details.IsTscEnabled cpu_info = Z.testbit edx 4 /\
  Details.IsInvariantTscEnabled cpu_info = Z.testbit edx 8 /\
  Details.IsRdtscpEnabled cpu_info = Z.testbit edx 27 /\
  forall BarrierType : Barrier,
    Bench.TSCBenchmarking_new BarrierType w =
      if Z.testbit edx 4
         && (negb (Barrier_eqb BarrierType kRdtscp) || Z.testbit edx 27)
      then Some (Bench.mkBench 0 0)
      else None.
Proof.
  intros edx cpu_info.
  assert (H4 : Details.IsTscEnabled cpu_info = Z.testbit edx 4).
  { subst edx cpu_info. unfold Details.IsTscEnabled, Details.CpuInfo_new,
      Details.GetEdx, Details.kTscFeatureBit.
    destruct (hw_cpuid_leaf1 w) as [[[a b] c] d]. cbn [Details.registers_ snd].
    rewrite mask_test by lia. apply wrap32_testbit. lia. }
  assert (H8 : Details.IsInvariantTscEnabled cpu_info = Z.testbit edx 8).
  { subst edx cpu_info. unfold Details.IsInvariantTscEnabled,
      Details.CpuInfo_new, Details.GetEdx, Details.kInvariantTscBit.
    destruct (hw_cpuid_leaf1 w) as [[[a b] c] d]. cbn [Details.registers_ snd].
    rewrite mask_test by lia. apply wrap32_testbit. lia. }
  assert (H27 : Details.IsRdtscpEnabled cpu_info = Z.testbit edx 27).
  { subst edx cpu_info. unfold Details.IsRdtscpEnabled,
      Details.CpuInfo_new, Details.GetEdx, Details.kRdtscpFeatureBit.
    destruct (hw_cpuid_leaf1 w) as [[[a b] c] d]. cbn [Details.registers_ snd].
    rewrite mask_test by lia. apply wrap32_testbit. lia. }
  repeat split; try assumption.
  intros BarrierType. rewrite TSCBenchmarking_new_spec.
  fold cpu_info. rewrite H4, H27. reflexivity.
Qed.

(** ** Further properties of the calibration loops *)

Lemma filter_length_le {A : Type} (P : A -> bool) (l : list A) :
  (length (filter P l) <= length l)%nat.
Proof.
  induction l as [|x l IH]; cbn; [lia|]. destruct (P x); cbn; lia.
Qed.

Lemma needed_bounds (P : Stream.Sample -> bool) (n k : nat)
    (l : list Stream.Sample) :
  Reading.needed P n l = Some k -> (n <= k <= length l)%nat.
Proof.
  intros H. apply needed_kept in H as (E1 & E2 & E3). split; [|exact E3].
  rewrite <- E2, <- E1.
  apply Nat.le_trans with (length (firstn k l)).
  - apply filter_length_le.
  - rewrite length_firstn. lia.
Qed.

Lemma stream_length {World : Type} {HW : Hardware World}
    (CheckCpuMigration : bool) (BarrierType : Barrier) (code : Code World)
    (n : nat) :
  forall m : Machine World,
    length (Stream.observations CheckCpuMigration BarrierType code n m) = n.
Proof.
  induction n as [|n IH]; intros m; cbn; [reflexivity|].
  destruct (Stream.sample CheckCpuMigration BarrierType code m) as [x m'].
  cbn. rewrite IH. reflexivity.
Qed.

Lemma min_duration_positive (l : list Stream.Sample) :
  Forall (fun x => Stream.accepted x = true) l ->
  1 <= Stream.min_duration l.
Proof.
  induction 1 as [|x l Hx Hl IH].
  - cbv. discriminate.
  - change (Stream.min_duration (x :: l))
      with (Z.min (Stream.duration x) (Stream.min_duration l)).
    unfold Stream.accepted, Stream.monotonic in Hx.
    apply andb_prop in Hx as [_ Hx]. apply Z.ltb_lt in Hx.
    unfold Stream.duration. lia.
Qed.

(** What a completed [MeasureMinLatency] returns and where it leaves the
    machine. *)
Lemma MeasureMinLatency_done {World : Type} {HW : Hardware World}
    (CheckCpuMigration : bool) (BarrierType : Barrier) (fuel : nat) (N : Z)
    (code : Code World) (m m' : Machine World) (v : TimePoint) :
  0 <= N < 2 ^ 64 ->
  Bench.MeasureMinLatency CheckCpuMigration BarrierType fuel N code m
    = Done (v, m') ->
  1 <= v < 2 ^ 64 /\
  exists k, (Z.to_nat N <= k <= fuel)%nat /\
            m' = Stream.advance CheckCpuMigration BarrierType code k m.
Proof.
  intros HN H. rewrite MeasureMinLatency_spec in H by exact HN.
  destruct (Reading.needed _ _ _) as [k|] eqn:E; [|discriminate].
  injection H as <- <-. split.
  - split; [apply min_duration_positive, kept_Forall|].
    pose proof (min_duration_le_max
                  (Reading.kept Stream.accepted (Z.to_nat N)
                     (Stream.observations CheckCpuMigration BarrierType code
                        fuel m))) as Hle.
    unfold TimePoint_max in Hle. lia.
  - exists k. split; [|reflexivity].
    apply needed_bounds in E. rewrite stream_length in E. exact E.
Qed.

(** X8.  A completed [Initialize] leaves a counter floor between 1 and
    2^64 - 1 and a 64-bit clock overhead, whatever the object held
    before; it has invoked the two calibration callables at least 200
    times in all, so it cannot complete on fewer than 100 samples per
    loop. *)
Theorem Initialize_floor
    {World : Type} {HW : Hardware World}
    (CheckCpuMigration : bool) (BarrierType : Barrier) (fuel : nat)
    (b b' : Bench.TSCBenchmarking) (m m' : Machine World) :
  Bench.Initialize CheckCpuMigration BarrierType fuel b m = Done (b', m') ->
  1 <= Bench.tsc_overhead_ b' < 2 ^ 64 /\
  is_u64 (Bench.clock_overhead_ b') /\
  (100 <= fuel)%nat /\
  (200 + count_event EvCode (log m) <= count_event EvCode (log m'))%nat /\
  forall b0 : Bench.TSCBenchmarking,
    Bench.Initialize CheckCpuMigration BarrierType fuel b0 m = Done (b', m').
Proof.
  intros H. unfold Bench.Initialize, Bench.MeasureOverhead in H.
  set (m0 := mkMachine (hw_realtime_setup (world m)) (log m)) in *.
  destruct (Bench.MeasureMinLatency CheckCpuMigration BarrierType fuel
              Bench.kDefaultCyclesNumber Bench.kEmptyCode m0)
    as [[a m1]| |] eqn:E1; try discriminate.
  destruct (Bench.MeasureMinLatency CheckCpuMigration BarrierType fuel
              Bench.kDefaultCyclesNumber Bench.kGetTime m1)
    as [[c m2]| |] eqn:E2; try discriminate.
  injection H as <- <-. cbn [Bench.tsc_overhead_ Bench.clock_overhead_].
  assert (HN : 0 <= Bench.kDefaultCyclesNumber < 2 ^ 64)
    by (unfold Bench.kDefaultCyclesNumber; lia).
  pose proof (MeasureMinLatency_done _ _ _ _ _ _ _ _ HN E1)
    as (Ha & k1 & Hk1 & ->).
  pose proof (MeasureMinLatency_done _ _ _ _ _ _ _ _ HN E2)
    as (Hc & k2 & Hk2 & ->).
  change (Z.to_nat Bench.kDefaultCyclesNumber) with 100%nat in Hk1, Hk2.
  split; [exact Ha|]. split; [apply wrap64_range|]. split; [lia|]. split.
  - rewrite !advance_code_count. subst m0. cbn [log]. lia.
  - intros b0. unfold Bench.Initialize, Bench.MeasureOverhead.
    fold m0. rewrite E1, E2. reflexivity.
Qed.

Lemma Initialize_floor_witness :
  let script :=
    concat (repeat [(0, 0); (5, 0)] 100)
    ++ concat (repeat [(0, 0); (9, 0)] 100) in
  exists b' m',
    Bench.Initialize false kOneCpuId 100 (Bench.mkBench 0 0)
      (Tape.boot script) = Done (b', m') /\
    1 <= Bench.tsc_overhead_ b' < 2 ^ 64 /\ (100 <= 100)%nat.
Proof.
  cbv zeta. do 2 eexists.
  assert (H : forall b' m',
             Bench.Initialize false kOneCpuId 100 (Bench.mkBench 0 0)
               (Tape.boot
                  (concat (repeat [(0, 0); (5, 0)] 100)
                   ++ concat (repeat [(0, 0); (9, 0)] 100)))
             = Done (b', m') ->
             Bench.Initialize false kOneCpuId 100 (Bench.mkBench 0 0)
               (Tape.boot
                  (concat (repeat [(0, 0); (5, 0)] 100)
                   ++ concat (repeat [(0, 0); (9, 0)] 100)))
             = Done (b', m') /\
             1 <= Bench.tsc_overhead_ b' < 2 ^ 64 /\ (100 <= 100)%nat).
  { intros b' m' E.
    pose proof (Initialize_floor false kOneCpuId 100 (Bench.mkBench 0 0) b'
                  (Tape.boot
                     (concat (repeat [(0, 0); (5, 0)] 100)
                      ++ concat (repeat [(0, 0); (9, 0)] 100))) m' E)
      as (H1 & _ & H3 & _).
    split; [exact E|]. split; [exact H1|exact H3]. }
  apply H. vm_compute. reflexivity.
Defined.

(** The stabilized loop keeps its minimum a 64-bit value. *)
Lemma stab_consume_range :
  forall (N thr : Z) (l : list Stream.Sample) (st s : Bench.StabLoop)
         (k : nat),
    is_u64 (Bench.sl_min_latency st) ->
    Stream.consume _
      (fun st => (Bench.sl_i st <? N)
                 && (Bench.sl_min_latency_cycles_number st <? thr))
      Stream.stab_step l st = Some (s, k) ->
    is_u64 (Bench.sl_min_latency s).
Proof.
  intros N thr. induction l as [|x l IH]; intros st s k Hst H;
    cbn [Stream.consume] in H;
    destruct ((Bench.sl_i st <? N)
              && (Bench.sl_min_latency_cycles_number st <? thr));
    try discriminate; try (injection H as <- _; exact Hst).
  destruct (Stream.consume _ _ _ l (Stream.stab_step st x))
    as [[s' k']|] eqn:E; [|discriminate].
  injection H as <- _. refine (IH _ _ _ _ E).
  unfold Stream.stab_step. destruct (Stream.accepted x); [|exact Hst].
  cbn [Bench.sl_min_latency].
  destruct (wrap64 (Stream.s_end x - Stream.s_start x)
            <? Bench.sl_min_latency st); cbn [Bench.sl_min_latency];
    [apply wrap64_range|exact Hst].
Qed.

Lemma MeasureStabilizedMinLatency_range
    {World : Type} {HW : Hardware World}
    (CheckCpuMigration : bool) (BarrierType : Barrier) (fuel : nat)
    (N thr : Z) (code : Code World) (m m' : Machine World) (v : TimePoint) :
  Bench.MeasureStabilizedMinLatency CheckCpuMigration BarrierType fuel N thr
    code m = Done (v, m') ->
  is_u64 v.
Proof.
  unfold Bench.MeasureStabilizedMinLatency.
  rewrite MeasureStabilizedMinLatency_loop_drive, drive_consume.
  destruct (Stream.consume _ _ _ _ _) as [[s k]|] eqn:E; [|discriminate].
  cbn. intros H. injection H as <- _.
  refine (stab_consume_range _ _ _ _ _ _ _ E).
  cbn. unfold is_u64, TimePoint_max. lia.
Qed.

Lemma wrap64_sub_add (a v : Z) :
  is_u64 v -> wrap64 (a + wrap64 (v - a)) = v.
Proof.
  intros Hv. unfold wrap64. rewrite Z.add_mod_idemp_r by lia.
  replace (a + (v - a)) with v by lia. apply Z.mod_small. exact Hv.
Qed.

(** X9.  Both overhead procedures return the counter floor together with
    the clock overhead, and the raw system-clock floor is their sum
    modulo 2^64: nothing is lost when the difference wraps. *)
Theorem overhead_pair_sum
    {World : Type} {HW : Hardware World}
    (CheckCpuMigration : bool) (BarrierType : Barrier) (fuel : nat)
    (N thr : Z) (m : Machine World) :
  0 <= N < 2 ^ 64 ->
  (forall first second m2,
     Bench.MeasureOverhead CheckCpuMigration BarrierType fuel N m
       = Done (first, second, m2) ->
     exists floor m1,
       Bench.MeasureMinLatency CheckCpuMigration BarrierType fuel N
         Bench.kEmptyCode m = Done (first, m1) /\
       Bench.MeasureMinLatency CheckCpuMigration BarrierType fuel N
         Bench.kGetTime m1 = Done (floor, m2) /\
       wrap64 (first + second) = floor) /\
  (forall first second m2,
     Bench.MeasureStabilizedOverhead CheckCpuMigration BarrierType fuel N thr
       m = Done (first, second, m2) ->
     exists floor m1,
       Bench.MeasureStabilizedMinLatency CheckCpuMigration BarrierType fuel
         N thr Bench.kEmptyCode m = Done (first, m1) /\
       Bench.MeasureStabilizedMinLatency CheckCpuMigration BarrierType fuel
         N thr Bench.kGetTime m1 = Done (floor, m2) /\
       wrap64 (first + second) = floor).
Proof.
  intros HN. split; intros first second m2 H.
  - unfold Bench.MeasureOverhead in H.
    destruct (Bench.MeasureMinLatency _ _ _ _ Bench.kEmptyCode m)
      as [[a m1]| |] eqn:E1; try discriminate.
    destruct (Bench.MeasureMinLatency _ _ _ _ Bench.kGetTime m1)
      as [[c m2']| |] eqn:E2; try discriminate.
    injection H as <- <- <-. exists c, m1.
    split; [reflexivity|]. split; [exact E2|].
    apply wrap64_sub_add.
    pose proof (MeasureMinLatency_done _ _ _ _ _ _ _ _ HN E2) as [Hc _].
    unfold is_u64. lia.
  - unfold Bench.MeasureStabilizedOverhead in H.
    destruct (Bench.MeasureStabilizedMinLatency _ _ _ _ _ Bench.kEmptyCode m)
      as [[a m1]| |] eqn:E1; try discriminate.
    destruct (Bench.MeasureStabilizedMinLatency _ _ _ _ _ Bench.kGetTime m1)
      as [[c m2']| |] eqn:E2; try discriminate.
    injection H as <- <- <-. exists c, m1.
    split; [reflexivity|]. split; [exact E2|].
    apply wrap64_sub_add.
    apply (MeasureStabilizedMinLatency_range _ _ _ _ _ _ _ _ _ E2).
Qed.

Lemma overhead_pair_sum_witness :
  let m := Tape.boot [(0, 0); (5, 0); (0, 0); (3, 0)] in
  let m2 := Stream.advance false kOneCpuId Bench.kGetTime 1
              (Stream.advance false kOneCpuId Bench.kEmptyCode 1 m) in
  0 <= 1 < 2 ^ 64 /\
  exists floor m1,
    Bench.MeasureMinLatency false kOneCpuId 1 1 Bench.kEmptyCode m
      = Done (5, m1) /\
    Bench.MeasureMinLatency false kOneCpuId 1 1 Bench.kGetTime m1
      = Done (floor, m2) /\
    wrap64 (5 + (2 ^ 64 - 2)) = floor.
Proof.
  cbv zeta. split; [lia|].
  pose proof (overhead_pair_sum false kOneCpuId 1 1 1
                (Tape.boot [(0, 0); (5, 0); (0, 0); (3, 0)])
                ltac:(lia)) as [H _].
  apply (H 5 (2 ^ 64 - 2)). vm_compute. reflexivity.
Defined.

(** A sample in range is never retained against a floor of 2^64 - 1. *)
Lemma retained_max (x : Stream.Sample) :
  Stream.in_range x -> Stream.retained TimePoint_max x = false.
Proof.
  unfold Stream.in_range, Stream.retained, Stream.duration, is_u64,
    TimePoint_max.
  intros [Hs He]. apply andb_false_iff. right. apply Z.ltb_ge. lia.
Qed.

Lemma filter_none (P : Stream.Sample -> bool) (l : list Stream.Sample) :
  Forall (fun x => P x = false) l -> filter P l = [].
Proof.
  induction 1 as [|x l Hx Hl IH]; cbn; [reflexivity|].
  rewrite Hx. exact IH.
Qed.

(** X10.  With [cycles_number = 0], or a stabilized threshold of 0, the
    calibration loops take no sample and return 2^64 - 1, so
    [MeasureOverhead] yields the pair (2^64 - 1, 0); and [Run] on an
    object holding that floor retains no sample at all: with
    [cycles_number_ >= 1] it exhausts any fuel. *)
Theorem calibration_without_samples
    {World : Type} {HW : Hardware World}
    (CheckCpuMigration : bool) (BarrierType : Barrier) (fuel : nat)
    (code : Code World) (m : Machine World) :
  Bench.MeasureMinLatency CheckCpuMigration BarrierType fuel 0 code m
    = Done (TimePoint_max, m) /\
  (forall thr,
     Bench.MeasureStabilizedMinLatency CheckCpuMigration BarrierType fuel 0
       thr code m = Done (TimePoint_max, m)) /\
  (forall N,
     Bench.MeasureStabilizedMinLatency CheckCpuMigration BarrierType fuel N
       0 code m = Done (TimePoint_max, m)) /\
  Bench.MeasureOverhead CheckCpuMigration BarrierType fuel 0 m
    = Done (TimePoint_max, 0, m) /\
  (forall (clock_overhead : TimePoint) (settings : Bench.Settings),
     1 <= Bench.cycles_number_ settings < 2 ^ 64 ->
     Bench.Run CheckCpuMigration BarrierType fuel
       (Bench.mkBench TimePoint_max clock_overhead) code settings m
     = OutOfFuel).
Proof.
  split; [destruct fuel; reflexivity|].
  split; [intros thr; destruct fuel; reflexivity|].
  split.
  { intros N. unfold Bench.MeasureStabilizedMinLatency.
    destruct fuel; cbn; rewrite andb_false_r; reflexivity. }
  split; [destruct fuel; reflexivity|].
  intros c settings HN. unfold Bench.Run.
  rewrite Run_from_spec by exact HN. cbv zeta.
  cbn [Bench.tsc_overhead_].
  destruct (Reading.needed _ _ _) as [k|] eqn:E; [|reflexivity].
  exfalso. apply needed_kept in E as (_ & E & _).
  unfold Reading.kept in E. rewrite filter_none in E.
  - rewrite firstn_nil in E. cbn in E. lia.
  - eapply Forall_impl; [|apply observations_in_range].
    intros x Hx. apply retained_max. exact Hx.
Qed.

Lemma calibration_without_samples_witness :
  1 <= 1 < 2 ^ 64 /\
  Bench.Run false kOneCpuId 3 (Bench.mkBench TimePoint_max 0) Tape.nop
    (Bench.mkSettings 1 0 0)
    (Tape.boot [(0, 0); (2 ^ 64 - 1, 0); (0, 0); (9, 0)])
  = OutOfFuel.
Proof.
  split; [lia|].
  apply (proj2 (proj2 (proj2 (proj2
           (calibration_without_samples false kOneCpuId 3 Tape.nop
              (Tape.boot [(0, 0); (2 ^ 64 - 1, 0); (0, 0); (9, 0)])))))).
  cbn. lia.
Defined.

(** *** The stabilized loop against the plain one *)

Lemma min_consume_decreasing (N : Z) :
  forall (l : list Stream.Sample) (st p : Bench.MinLoop) (k : nat),
    Stream.consume _ (fun st => Bench.ml_i st <? N) Stream.min_step l st
      = Some (p, k) ->
    Bench.ml_min_latency p <= Bench.ml_min_latency st.
Proof.
  induction l as [|x l IH]; intros st p k H; cbn [Stream.consume] in H;
    destruct (Bench.ml_i st <? N); try discriminate;
    try (injection H as <- _; lia).
  destruct (Stream.consume _ _ _ l (Stream.min_step st x)) as [[p' k']|] eqn:E;
    [|discriminate].
  injection H as <- _. apply IH in E.
  apply Z.le_trans with (1 := E).
  unfold Stream.min_step. destruct (Stream.accepted x); cbn; lia.
Qed.

(** One step of each loop on the same sample keeps count and minimum in
    step. *)
Lemma steps_agree (ss : Bench.StabLoop) (sm : Bench.MinLoop)
    (x : Stream.Sample) :
  Bench.sl_i ss = Bench.ml_i sm ->
  Bench.sl_min_latency ss = Bench.ml_min_latency sm ->
  Bench.sl_i (Stream.stab_step ss x) = Bench.ml_i (Stream.min_step sm x) /\
  Bench.sl_min_latency (Stream.stab_step ss x)
    = Bench.ml_min_latency (Stream.min_step sm x).
Proof.
  intros Hi Hm. unfold Stream.stab_step, Stream.min_step.
  destruct (Stream.accepted x); [|auto].
  cbn [Bench.ml_i Bench.ml_min_latency]. rewrite <- Hi, <- Hm.
  destruct (Z.ltb_spec (wrap64 (Stream.s_end x - Stream.s_start x))
              (Bench.sl_min_latency ss));
    cbn [Bench.sl_i Bench.sl_min_latency]; split; try reflexivity; lia.
Qed.

Lemma consume_lockstep (N thr : Z) :
  forall (l : list Stream.Sample) (ss : Bench.StabLoop) (sm p : Bench.MinLoop)
         (kp : nat),
    Bench.sl_i ss = Bench.ml_i sm ->
    Bench.sl_min_latency ss = Bench.ml_min_latency sm ->
    Stream.consume _ (fun st => Bench.ml_i st <? N) Stream.min_step l sm
      = Some (p, kp) ->
    exists s ks,
      Stream.consume _
        (fun st => (Bench.sl_i st <? N)
                   && (Bench.sl_min_latency_cycles_number st <? thr))
        Stream.stab_step l ss = Some (s, ks) /\
      (ks <= kp)%nat /\
      Bench.ml_min_latency p <= Bench.sl_min_latency s.
Proof.
  induction l as [|x l IH]; intros ss sm p kp Hi Hm H.
  - cbn [Stream.consume] in *. rewrite Hi.
    destruct (Bench.ml_i sm <? N); [discriminate|].
    injection H as <- <-. cbn [andb]. exists ss, O.
    repeat split; auto; lia.
  - cbn [Stream.consume]. rewrite Hi.
    destruct (Bench.ml_i sm <? N) eqn:C.
    + cbn [Stream.consume] in H. rewrite C in H.
      destruct (Stream.consume _ _ _ l (Stream.min_step sm x))
        as [[p' k']|] eqn:E; [|discriminate].
      injection H as <- <-. cbn [andb].
      destruct (Bench.sl_min_latency_cycles_number ss <? thr).
      * destruct (steps_agree ss sm x Hi Hm) as [Hi' Hm'].
        destruct (IH _ _ _ _ Hi' Hm' E) as (s & ks & -> & Hk & Hle).
        exists s, (S ks). repeat split; auto; lia.
      * exists ss, O. split; [reflexivity|]. split; [lia|].
        apply min_consume_decreasing in E. rewrite Hm.
        apply Z.le_trans with (1 := E).
        unfold Stream.min_step. destruct (Stream.accepted x); cbn; lia.
    + cbn [Stream.consume] in H. rewrite C in H.
      injection H as <- <-. cbn [andb]. exists ss, O.
      repeat split; auto; lia.
Qed.

(** X11.  Whenever [MeasureMinLatency] completes, so does the stabilized
    loop on the same machine with the same fuel, for any threshold; it
    has taken no more samples, and the value it returns is not below the
    one the plain loop returns. *)
Theorem stabilized_not_below_plain
    {World : Type} {HW : Hardware World}
    (CheckCpuMigration : bool) (BarrierType : Barrier) (fuel : nat)
    (N thr : Z) (code : Code World) (m mp : Machine World) (plain : TimePoint) :
  Bench.MeasureMinLatency CheckCpuMigration BarrierType fuel N code m
    = Done (plain, mp) ->
  exists stabilized ks kp,
    Bench.MeasureStabilizedMinLatency CheckCpuMigration BarrierType fuel N thr
      code m =
      Done (stabilized,
            Stream.advance CheckCpuMigration BarrierType code ks m) /\
    mp = Stream.advance CheckCpuMigration BarrierType code kp m /\
    (ks <= kp)%nat /\
    plain <= stabilized.
Proof.
  unfold Bench.MeasureMinLatency, Bench.MeasureStabilizedMinLatency.
  rewrite MeasureMinLatency_loop_drive, MeasureStabilizedMinLatency_loop_drive,
    !drive_consume.
  destruct (Stream.consume _ (fun st => Bench.ml_i st <? N) _ _ _)
    as [[p kp]|] eqn:E; [|discriminate].
  cbn [outcome_map fst snd]. intros H. injection H as <- <-.
  destruct (consume_lockstep N thr _ (Bench.mkStabLoop 0 TimePoint_max 0)
              (Bench.mkMinLoop 0 TimePoint_max) _ _ eq_refl eq_refl E)
    as (s & ks & -> & Hk & Hle).
  cbn [outcome_map fst snd]. exists (Bench.sl_min_latency s), ks, kp.
  repeat split; auto.
Qed.

Lemma stabilized_not_below_plain_witness :
  let m := Tape.boot [(0, 0); (10, 0); (0, 0); (12, 0); (0, 0); (3, 0)] in
  exists stabilized ks kp,
    Bench.MeasureStabilizedMinLatency false kOneCpuId 3 3 2 Tape.nop m =
      Done (stabilized, Stream.advance false kOneCpuId Tape.nop ks m) /\
    Stream.advance false kOneCpuId Tape.nop 3 m
      = Stream.advance false kOneCpuId Tape.nop kp m /\
    (ks <= kp)%nat /\
    3 <= stabilized.
Proof.
  cbv zeta.
  apply (stabilized_not_below_plain false kOneCpuId 3 3 2 Tape.nop
           (Tape.boot [(0, 0); (10, 0); (0, 0); (12, 0); (0, 0); (3, 0)])).
  vm_compute. reflexivity.
Defined.

(** With a threshold of at least [N] the counter, which never exceeds
    the number of samples taken, cannot reach it first. *)
Lemma consume_same (N thr : Z) :
  N <= thr -> N < 2 ^ 64 ->
  forall (l : list Stream.Sample) (ss : Bench.StabLoop) (sm : Bench.MinLoop),
    Bench.sl_i ss = Bench.ml_i sm ->
    Bench.sl_min_latency ss = Bench.ml_min_latency sm ->
    0 <= Bench.sl_min_latency_cycles_number ss <= Bench.sl_i ss ->
    match
      Stream.consume _
        (fun st => (Bench.sl_i st <? N)
                   && (Bench.sl_min_latency_cycles_number st <? thr))
        Stream.stab_step l ss,
      Stream.consume _ (fun st => Bench.ml_i st <? N) Stream.min_step l sm
    with
    | Some (s, ks), Some (p, kp) =>
        ks = kp /\ Bench.sl_min_latency s = Bench.ml_min_latency p
    | None, None => True
    | _, _ => False
    end.
Proof.
  intros Hthr HN. induction l as [|x l IH]; intros ss sm Hi Hm Hc;
    cbn [Stream.consume]; rewrite <- Hi;
    destruct (Z.ltb_spec (Bench.sl_i ss) N) as [Hlt|Hge]; cbn [andb];
    try (split; [reflexivity|exact Hm]).
  - destruct (Z.ltb_spec (Bench.sl_min_latency_cycles_number ss) thr);
      [exact I|lia].
  - destruct (Z.ltb_spec (Bench.sl_min_latency_cycles_number ss) thr);
      [|lia].
    destruct (steps_agree ss sm x Hi Hm) as [Hi' Hm'].
    assert (Hc' : 0 <= Bench.sl_min_latency_cycles_number
                         (Stream.stab_step ss x)
                  <= Bench.sl_i (Stream.stab_step ss x)).
    { unfold Stream.stab_step. destruct (Stream.accepted x); [|exact Hc].
      destruct (wrap64 (Stream.s_end x - Stream.s_start x)
                <? Bench.sl_min_latency ss);
        cbn [Bench.sl_i Bench.sl_min_latency_cycles_number];
        rewrite !wrap64_small by (unfold is_u64; lia); lia. }
    specialize (IH _ _ Hi' Hm' Hc').
    destruct (Stream.consume _ _ Stream.stab_step l _) as [[s ks]|];
      destruct (Stream.consume _ _ Stream.min_step l _) as [[p kp]|];
      try contradiction; [|exact I].
    destruct IH as [-> IH]. split; [reflexivity|exact IH].
Qed.

(** X12.  With a stabilized threshold of at least [cycles_number] the
    stabilized loop never stops early: it behaves as
    [MeasureMinLatency], value and machine. *)
Theorem stabilized_with_large_threshold
    {World : Type} {HW : Hardware World}
    (CheckCpuMigration : bool) (BarrierType : Barrier) (fuel : nat)
    (N thr : Z) (code : Code World) (m : Machine World) :
  N <= thr -> N < 2 ^ 64 ->
  Bench.MeasureStabilizedMinLatency CheckCpuMigration BarrierType fuel N thr
    code m =
  Bench.MeasureMinLatency CheckCpuMigration BarrierType fuel N code m.
Proof.
  intros Hthr HN.
  unfold Bench.MeasureMinLatency, Bench.MeasureStabilizedMinLatency.
  rewrite MeasureMinLatency_loop_drive, MeasureStabilizedMinLatency_loop_drive,
    !drive_consume.
  pose proof (consume_same N thr Hthr HN
                (Stream.observations CheckCpuMigration BarrierType code
                   fuel m)
                (Bench.mkStabLoop 0 TimePoint_max 0)
                (Bench.mkMinLoop 0 TimePoint_max) eq_refl eq_refl
                ltac:(cbn; lia)) as H.
  destruct (Stream.consume _ _ Stream.stab_step _ _) as [[s ks]|];
    destruct (Stream.consume _ _ Stream.min_step _ _) as [[p kp]|];
    try contradiction; [|reflexivity].
  destruct H as [-> H]. cbn [outcome_map fst snd]. rewrite H. reflexivity.
Qed.

Lemma stabilized_with_large_threshold_witness :
  2 <= 2 /\ 2 < 2 ^ 64 /\
  Bench.MeasureStabilizedMinLatency true kTwoCpuId 3 2 2 Tape.nop
    (Tape.boot [(0, 1); (10, 1); (0, 1); (12, 2); (0, 1); (3, 1)]) =
  Bench.MeasureMinLatency true kTwoCpuId 3 2 Tape.nop
    (Tape.boot [(0, 1); (10, 1); (0, 1); (12, 2); (0, 1); (3, 1)]).
Proof.
  split; [lia|]. split; [lia|].
  apply stabilized_with_large_threshold; lia.
Defined.

(** ** Further properties of Run *)

Lemma sum_durations_upper (B : Z) (l : list Stream.Sample) :
  (forall x, In x l -> Stream.duration x <= B) ->
  Stream.sum_durations l <= Z.of_nat (length l) * B.
Proof.
  induction l as [|x l IH]; intros H.
  - cbn. lia.
  - change (Stream.sum_durations (x :: l))
      with (Stream.duration x + Stream.sum_durations l).
    pose proof (H x (or_introl eq_refl)).
    assert (Stream.sum_durations l <= Z.of_nat (length l) * B)
      by (apply IH; intros y Hy; apply H; right; exact Hy).
    cbn [length]. lia.
Qed.

(** What a completed [Run] returns and where it leaves the machine. *)
Lemma Run_done {World : Type} {HW : Hardware World}
    (CheckCpuMigration : bool) (BarrierType : Barrier) (fuel : nat)
    (b : Bench.TSCBenchmarking) (code : Code World)
    (settings : Bench.Settings) (m m' : Machine World) (res : Bench.Result) :
  0 <= Bench.cycles_number_ settings < 2 ^ 64 ->
  Bench.Run CheckCpuMigration BarrierType fuel b code settings m
    = Done (res, m') ->
  let n := Z.to_nat (Bench.cycles_number_ settings) in
  let m1 := Reading.after_warmup CheckCpuMigration BarrierType code settings m
  in
  let retained_samples :=
    Reading.kept (Stream.retained (Bench.tsc_overhead_ b)) n
      (Stream.observations CheckCpuMigration BarrierType code fuel m1) in
  1 <= Bench.cycles_number_ settings /\
  length retained_samples = n /\
  res = Bench.mkResult
          (wrap64 (Stream.sum_durations retained_samples)
           / Bench.cycles_number_ settings)
          (Bench.tsc_overhead_ b) /\
  exists k, (n <= k <= fuel)%nat /\
            m' = Stream.advance CheckCpuMigration BarrierType code k m1.
Proof.
  intros HN H n m1 retained_samples. unfold Bench.Run in H.
  destruct (Z.eq_dec (Bench.cycles_number_ settings) 0) as [E0|E0].
  { rewrite Run_from_zero in H by exact E0. discriminate. }
  rewrite Run_from_spec in H by lia. cbv zeta in H.
  fold n m1 in H. fold retained_samples in H.
  destruct (Reading.needed _ n _) as [k|] eqn:E; [|discriminate].
  injection H as <- <-. split; [lia|].
  pose proof (needed_bounds _ _ _ _ E) as Hk.
  apply needed_kept in E as (_ & E & _).
  split; [exact E|]. split; [reflexivity|].
  exists k. split; [|reflexivity].
  unfold m1 in Hk.
  assert (L : forall mm,
            length (Stream.observations CheckCpuMigration BarrierType code
                      fuel mm) = fuel).
  { clear. induction fuel as [|f IH]; intros mm; cbn; [reflexivity|].
    destruct (Stream.sample CheckCpuMigration BarrierType code mm).
    cbn. rewrite IH. reflexivity. }
  rewrite L in Hk. exact Hk.
Qed.

(** X13.  The [time_] of a completed [Run] is a 64-bit value and never
    exceeds a bound that holds for every retained duration, even when
    the accumulator has wrapped. *)
Theorem Run_time_upper_bound
    {World : Type} {HW : Hardware World}
    (CheckCpuMigration : bool) (BarrierType : Barrier) (fuel : nat)
    (b : Bench.TSCBenchmarking) (code : Code World)
    (settings : Bench.Settings) (m m' : Machine World) (res : Bench.Result) :
  0 <= Bench.cycles_number_ settings < 2 ^ 64 ->
  Bench.Run CheckCpuMigration BarrierType fuel b code settings m
    = Done (res, m') ->
  is_u64 (Bench.time_ res) /\
  forall B : Z,
    (forall x,
       In x (Reading.kept (Stream.retained (Bench.tsc_overhead_ b))
               (Z.to_nat (Bench.cycles_number_ settings))
               (Stream.observations CheckCpuMigration BarrierType code fuel
                  (Reading.after_warmup CheckCpuMigration BarrierType code
                     settings m))) ->
       Stream.s_end x - Stream.s_start x <= B) ->
    Bench.time_ res <= B.
Proof.
  intros HN H.
  pose proof (Run_done _ _ _ _ _ _ _ _ _ HN H) as (H1 & Hlen & -> & _).
  cbn [Bench.time_].
  set (l := Reading.kept _ _ _) in *.
  pose proof (wrap64_range (Stream.sum_durations l)) as Hw.
  unfold is_u64 in Hw.
  assert (H0 : 0 <= Stream.sum_durations l)
    by (apply (sum_durations_nonneg (Bench.tsc_overhead_ b));
        apply kept_Forall).
  assert (Hle : wrap64 (Stream.sum_durations l) <= Stream.sum_durations l)
    by (unfold wrap64; apply Z.mod_le; lia).
  split.
  - unfold is_u64. split; [apply Z.div_pos; lia|].
    apply Z.le_lt_trans with (wrap64 (Stream.sum_durations l)); [|lia].
    apply Z.div_le_upper_bound; [lia|]. nia.
  - intros B HB.
    pose proof (sum_durations_upper B l HB) as Hu.
    rewrite Hlen, Z2Nat.id in Hu by lia.
    apply Z.div_le_upper_bound; lia.
Qed.

Lemma Run_time_upper_bound_witness :
  0 <= 2 < 2 ^ 64 /\
  Bench.time_ (Bench.mkResult 6 0) <= 7.
Proof.
  split; [lia|].
  pose proof (Run_time_upper_bound false kOneCpuId 2 (Bench.mkBench 0 0)
                Tape.nop (Bench.mkSettings 2 0 0)
                (Tape.boot [(0, 0); (7, 0); (10, 0); (15, 0)])
                (Stream.advance false kOneCpuId Tape.nop 2
                   (Tape.boot [(0, 0); (7, 0); (10, 0); (15, 0)]))
                (Bench.mkResult 6 0) ltac:(cbn; lia) eq_refl) as [_ H].
  apply H. intros x Hx. vm_compute in Hx.
  destruct Hx as [<-|[<-|[]]]; vm_compute; intros E; discriminate E.
Defined.

(** X14.  With [cycles_number_ = 1] a completed [Run] returns the
    duration of the single sample it retained, exactly, and that duration
    is above the floor. *)
Theorem Run_single_cycle
    {World : Type} {HW : Hardware World}
    (CheckCpuMigration : bool) (BarrierType : Barrier) (fuel : nat)
    (b : Bench.TSCBenchmarking) (code : Code World)
    (settings : Bench.Settings) (m m' : Machine World) (res : Bench.Result) :
  Bench.cycles_number_ settings = 1 ->
  Bench.Run CheckCpuMigration BarrierType fuel b code settings m
    = Done (res, m') ->
  exists x,
    Reading.kept (Stream.retained (Bench.tsc_overhead_ b)) 1
      (Stream.observations CheckCpuMigration BarrierType code fuel
         (Reading.after_warmup CheckCpuMigration BarrierType code settings m))
    = [x] /\
    Bench.time_ res = Stream.s_end x - Stream.s_start x /\
    Bench.tsc_overhead_ b < Bench.time_ res.
Proof.
  intros H1 H.
  assert (HN : 0 <= Bench.cycles_number_ settings < 2 ^ 64) by lia.
  pose proof (Run_done _ _ _ _ _ _ _ _ _ HN H) as (_ & Hlen & -> & _).
  clear HN.
  rewrite H1 in *. change (Z.to_nat 1) with 1%nat in *.
  set (obs := Stream.observations _ _ _ _ _) in *.
  pose proof (kept_Forall (Stream.retained (Bench.tsc_overhead_ b)) 1 obs)
    as HF.
  pose proof (Forall_firstn_range 1 _
                (observations_in_range CheckCpuMigration BarrierType code
                   fuel
                   (Reading.after_warmup CheckCpuMigration BarrierType code
                      settings m))) as _.
  destruct (Reading.kept (Stream.retained (Bench.tsc_overhead_ b)) 1 obs)
    as [|x [|y l]] eqn:K; try discriminate.
  exists x. split; [reflexivity|]. inversion HF as [|? ? Hx _]; subst.
  apply retained_duration in Hx as (_ & Hm & Ho).
  assert (Hin : Stream.in_range x).
  { assert (Hall : Forall Stream.in_range
                     (Reading.kept (Stream.retained (Bench.tsc_overhead_ b))
                        1 obs)).
    { unfold Reading.kept. apply Forall_firstn_range.
      apply Forall_forall. intros y Hy. apply filter_In in Hy as [Hy _].
      pose proof (observations_in_range CheckCpuMigration BarrierType code
                    fuel
                    (Reading.after_warmup CheckCpuMigration BarrierType code
                       settings m)) as Hobs.
      rewrite Forall_forall in Hobs. apply Hobs. exact Hy. }
    rewrite K in Hall. inversion Hall. assumption. }
  cbn [Bench.time_]. unfold Stream.sum_durations. cbn [fold_right].
  rewrite Z.add_0_r, Z.div_1_r.
  unfold Stream.duration in *. unfold Stream.in_range, is_u64 in Hin.
  rewrite wrap64_small by (unfold is_u64; lia). split; [reflexivity|lia].
Qed.

Lemma Run_single_cycle_witness :
  Bench.cycles_number_ (Bench.mkSettings 1 0 0) = 1 /\
  exists x,
    Reading.kept (Stream.retained 4) 1
      (Stream.observations false kOneCpuId Tape.nop 2
         (Tape.boot [(0, 0); (3, 0); (10, 0); (19, 0)])) = [x] /\
    Bench.time_ (Bench.mkResult 9 4) = Stream.s_end x - Stream.s_start x /\
    4 < Bench.time_ (Bench.mkResult 9 4).
Proof.
  split; [reflexivity|].
  refine (Run_single_cycle false kOneCpuId 2 (Bench.mkBench 4 0) Tape.nop
            (Bench.mkSettings 1 0 0)
            (Tape.boot [(0, 0); (3, 0); (10, 0); (19, 0)])
            (Stream.advance false kOneCpuId Tape.nop 2
               (Tape.boot [(0, 0); (3, 0); (10, 0); (19, 0)]))
            (Bench.mkResult 9 4) eq_refl _).
  vm_compute. reflexivity.
Defined.

Lemma reads_app (a b : list Event) :
  Traces.reads (a ++ b) = (Traces.reads a + Traces.reads b)%nat.
Proof. unfold Traces.reads. rewrite filter_app, length_app. reflexivity. Qed.

Lemma advance_reads {World : Type} {HW : Hardware World}
    (CheckCpuMigration : bool) (BarrierType : Barrier) (code : Code World)
    (n : nat) :
  forall m : Machine World,
    Traces.reads
      (log (Stream.advance CheckCpuMigration BarrierType code n m)) =
      (2 * n + Traces.reads (log m))%nat.
Proof.
  induction n as [|n IH]; intros m; [reflexivity|].
  cbn [Stream.advance]. rewrite IH, sample_log, reads_app.
  unfold Traces.reads at 1. rewrite sample_trace_reads. lia.
Qed.

(** X15.  A completed [Run] has invoked the operation once per warm-up
    cycle and once per sample of the measurement phase, at least
    [cycles_number_] of them, with two counter reads per invocation and
    nothing else invoked. *)
Theorem Run_invocations
    {World : Type} {HW : Hardware World}
    (CheckCpuMigration : bool) (BarrierType : Barrier) (fuel : nat)
    (b : Bench.TSCBenchmarking) (code : Code World)
    (settings : Bench.Settings) (m m' : Machine World) (res : Bench.Result) :
  0 <= Bench.cycles_number_ settings < 2 ^ 64 ->
  Bench.Run CheckCpuMigration BarrierType fuel b code settings m
    = Done (res, m') ->
  let warmup := Z.to_nat (Bench.cache_warmup_cycles_number_ settings) in
  exists k : nat,
    (Z.to_nat (Bench.cycles_number_ settings) <= k <= fuel)%nat /\
    count_event EvCode (log m')
      = (warmup + k + count_event EvCode (log m))%nat /\
    Traces.reads (log m')
      = (2 * (warmup + k) + Traces.reads (log m))%nat.
Proof.
  intros HN H warmup.
  pose proof (Run_done _ _ _ _ _ _ _ _ _ HN H) as (_ & _ & _ & k & Hk & ->).
  exists k. split; [exact Hk|]. unfold Reading.after_warmup. fold warmup.
  rewrite !advance_code_count, !advance_reads, PinThread_log. lia.
Qed.

Lemma Run_invocations_witness :
  0 <= 2 < 2 ^ 64 /\
  exists k : nat,
    (2 <= k <= 3)%nat /\
    count_event EvCode
      (log (Stream.advance false kOneCpuId Tape.nop 4
              (Tape.boot [(1, 0); (2, 0); (0, 0); (7, 0); (4, 0); (4, 0);
                          (10, 0); (15, 0)])))
      = (1 + k + 0)%nat.
Proof.
  split; [lia|].
  pose proof (Run_invocations false kOneCpuId 3 (Bench.mkBench 0 0) Tape.nop
                (Bench.mkSettings 2 0 1)
                (Tape.boot [(1, 0); (2, 0); (0, 0); (7, 0); (4, 0); (4, 0);
                            (10, 0); (15, 0)])
                (Stream.advance false kOneCpuId Tape.nop 4
                   (Tape.boot [(1, 0); (2, 0); (0, 0); (7, 0); (4, 0); (4, 0);
                               (10, 0); (15, 0)]))
                (Bench.mkResult 6 0) ltac:(cbn; lia)) as H.
  cbv zeta in H. destruct H as (k & Hk & Hc & _); [vm_compute; reflexivity|].
  exists k. split; [exact Hk|exact Hc].
Defined.



(** X17.  The net time the example programs print,
    [time_ - overhead_] in 64-bit arithmetic, does not wrap for a
    completed [Run] whose sum of retained durations fits in 64 bits: it
    is the plain difference and at least 1. *)
Theorem net_time_positive
    {World : Type} {HW : Hardware World}
    (CheckCpuMigration : bool) (BarrierType : Barrier) (fuel : nat)
    (b : Bench.TSCBenchmarking) (code : Code World)
    (settings : Bench.Settings) (m m' : Machine World) (res : Bench.Result) :
  Bench.wf_Bench b ->
  0 <= Bench.cycles_number_ settings < 2 ^ 64 ->
  Bench.Run CheckCpuMigration BarrierType fuel b code settings m
    = Done (res, m') ->
  Stream.sum_durations
    (Reading.kept (Stream.retained (Bench.tsc_overhead_ b))
       (Z.to_nat (Bench.cycles_number_ settings))
       (Stream.observations CheckCpuMigration BarrierType code fuel
          (Reading.after_warmup CheckCpuMigration BarrierType code
             settings m))) < 2 ^ 64 ->
  Traces.net_time res = Bench.time_ res - Bench.overhead_ res /\
  1 <= Traces.net_time res.
Proof.
  intros [Hb _] HN H Hsum.
  pose proof (Run_done _ _ _ _ _ _ _ _ _ HN H) as (H1 & Hlen & -> & _).
  set (l := Reading.kept _ _ _) in *.
  pose proof (kept_Forall (Stream.retained (Bench.tsc_overhead_ b))
                (Z.to_nat (Bench.cycles_number_ settings))
                (Stream.observations CheckCpuMigration BarrierType code fuel
                   (Reading.after_warmup CheckCpuMigration BarrierType code
                      settings m))) as HF.
  fold l in HF.
  pose proof (sum_durations_lower (Bench.tsc_overhead_ b) l HF) as HL.
  pose proof (sum_durations_nonneg (Bench.tsc_overhead_ b) l HF) as H0.
  rewrite Hlen, Z2Nat.id in HL by lia.
  unfold Traces.net_time. cbn [Bench.time_ Bench.overhead_].
  rewrite (wrap64_small (Stream.sum_durations l)) by (split; assumption).
  assert (Hq : Bench.tsc_overhead_ b + 1
               <= Stream.sum_durations l / Bench.cycles_number_ settings)
    by (apply Z.div_le_lower_bound; lia).
  assert (Hu : Stream.sum_durations l / Bench.cycles_number_ settings
               < 2 ^ 64).
  { apply Z.div_lt_upper_bound; [lia|]. nia. }
  unfold is_u64 in Hb.
  rewrite wrap64_small by (unfold is_u64; lia). lia.
Qed.

Lemma net_time_positive_witness :
  Bench.wf_Bench (Bench.mkBench 3 0) /\
  0 <= 2 < 2 ^ 64 /\
  Traces.net_time (Bench.mkResult 6 3) = 6 - 3.
Proof.
  assert (Hb : Bench.wf_Bench (Bench.mkBench 3 0))
    by (unfold Bench.wf_Bench, is_u64; cbn; lia).
  split; [exact Hb|]. split; [lia|].
  refine (proj1 (net_time_positive false kOneCpuId 2 (Bench.mkBench 3 0)
                   Tape.nop (Bench.mkSettings 2 0 0)
                   (Tape.boot [(0, 0); (7, 0); (10, 0); (15, 0)])
                   (Stream.advance false kOneCpuId Tape.nop 2
                      (Tape.boot [(0, 0); (7, 0); (10, 0); (15, 0)]))
                   (Bench.mkResult 6 3) Hb _ eq_refl _)).
  - cbn. lia.
  - reflexivity.
Defined.
